(** * alx_travel_app: booking and review serializers, seed command

    Shallow embedding of
      - [listings/serializers.py]  (BookingSerializer, ReviewSerializer)
      - [listings/management/commands/seed.py]  (Command.create_bookings)

    Conventions.
      - A [datetime.date] is its proleptic Gregorian ordinal, a [Z];
        [(a - b).days] is then [a - b].
      - A UUID primary key and a [User] are opaque identifiers ([nat]).
      - A [decimal.Decimal] is a sign, a coefficient and an exponent, as in
        CPython; arithmetic goes through the default context (28 digits,
        ROUND_HALF_EVEN).
      - A database table is the list of its rows, newest first.  The
        queries used by the code ([filter(...).exists()], [get] on a primary
        key, [filter(...).first()] tested for truth) do not depend on the
        order.
      - An exception is the [Err] branch of [Result].
      - A request carries the values its writable fields parse to; the
        validation each field runs on its value before [validate] is
        called comes with the model layer ([Models]). *)

From Stdlib Require Import ZArith List Bool Lia String QArith.
From Stdlib Require Import Qpower Ascii DecimalString DecimalNat Permutation.
Import ListNotations.
Open Scope Z_scope.

Set Implicit Arguments.

Definition UUID := nat.
Definition User := nat.
Definition date := Z.

(** ** Exceptions *)

(** The [serializers.ValidationError]s raised by the two serializers, named
    after the error kinds of the specification.  The message of the source is
    given next to each kind. *)
Inductive ValidationError : Type :=
| InvalidDateRange      (* "Check-out date must be after check-in date" *)
| PastDate              (* "Check-in date cannot be in the past" *)
| NotFound              (* "Listing not found" *)
| CapacityExceeded (requested allowed : Z)
                        (* "Number of guests (..) exceeds maximum allowed (..)" *)
| ListingUnavailable    (* "Listing is not available" *)
| DateConflict          (* "Listing is already booked for the selected dates" *)
| InvalidRating         (* "Rating must be between 1 and 5" *)
| NotEligible           (* "You can only review listings you have stayed at" *)
| DuplicateReview       (* "You have already reviewed this listing" *)
| InvalidField.         (* the errors [to_internal_value] has collected from
                           the fields' own validators, before [validate] *)

Inductive Exception : Type :=
| Invalid (e : ValidationError)
| DoesNotExist          (* an uncaught [Model.DoesNotExist] *)
| IntegrityError        (* the model layer refuses the row *)
| IndexError            (* [random.choice] of an empty sequence *)
| ValueError.           (* [random.randint] of an empty range *)

Inductive Result (A : Type) : Type :=
| Ok (a : A)
| Err (e : Exception).
Arguments Err {A} e.

Definition bind {A B : Type} (r : Result A) (k : A -> Result B) : Result B :=
  match r with
  | Ok a => k a
  | Err e => Err e
  end.

Notation "x <- r ;; k" := (bind r (fun x => k))
  (at level 61, r at next level, right associativity).

Definition raise {A : Type} (e : ValidationError) : Result A := Err (Invalid e).

(** ** decimal.Decimal *)

Module Decimal.

(** value = (-1)^sign * coefficient * 10^exponent, coefficient >= 0. *)
Record t : Type := make { sign : bool; coefficient : Z; exponent : Z }.

(** Precision of the default context. *)
Definition prec : Z := 28.

Fixpoint ndigits_aux (fuel : nat) (n : Z) : Z :=
  match fuel with
  | O => 1
  | S f => if n <? 10 then 1 else 1 + ndigits_aux f (n / 10)
  end.

(** Number of decimal digits of a coefficient. *)
Definition ndigits (n : Z) : Z := ndigits_aux (Z.to_nat (Z.log2 n)) n.

(** [Decimal._fix]: round the coefficient to [prec] digits, half to even.
    (The exponent limits Emax/Emin of the context are out of reach of the
    prices handled here and are not modelled.) *)
Definition fix_ (d : t) : t :=
  let c := coefficient d in
  let nd := ndigits c in
  if nd <=? prec then d
  else
    let k := nd - prec in
    let q := c / 10 ^ k in
    let r := c mod 10 ^ k in
    let half := 5 * 10 ^ (k - 1) in
    let q' := if (half <? r) || ((r =? half) && Z.odd q) then q + 1 else q in
    if q' =? 10 ^ prec
    then make (sign d) (q' / 10) (exponent d + k + 1)
    else make (sign d) q' (exponent d + k).

(** [Decimal(n)] for a Python int. *)
Definition of_int (n : Z) : t := make (n <? 0) (Z.abs n) 0.

(** [Decimal.__mul__] on finite operands. *)
Definition mul (a b : t) : t :=
  fix_ (make (xorb (sign a) (sign b))
             (coefficient a * coefficient b)
             (exponent a + exponent b)).

(** [d * n] with [n] a Python int: the int is converted first. *)
Definition mul_int (d : t) (n : Z) : t := mul d (of_int n).

(** The rational number a Decimal denotes. *)
Definition value (d : t) : Q :=
  ((if sign d then (-1) else 1) * inject_Z (coefficient d)
     * (10 # 1) ^ exponent d)%Q.

End Decimal.

(** ** Models (the fields the serializers and the seed command use) *)

Inductive Status : Type := pending | confirmed | cancelled | completed.

Definition Status_eqb (a b : Status) : bool :=
  match a, b with
  | pending, pending | confirmed, confirmed
  | cancelled, cancelled | completed, completed => true
  | _, _ => false
  end.

Module Listing.
Record t : Type := make {
  listing_id : UUID;
  host : User;
  price_per_night : Decimal.t;
  max_guests : Z;
  available : bool
}.
End Listing.

Module Booking.
Record t : Type := make {
  booking_id : UUID;
  listing : UUID;               (* foreign key to Listing *)
  guest : User;
  check_in_date : date;
  check_out_date : date;
  number_of_guests : Z;
  total_price : Decimal.t;
  status : Status
}.
End Booking.

Module Review.
Record t : Type := make {
  review_id : UUID;
  listing : UUID;               (* foreign key to Listing *)
  guest : User;
  booking : option UUID;        (* nullable foreign key to Booking *)
  rating : Z;
  comment : string
}.
End Review.

(** The database. *)
Record DB : Type := mkDB {
  listings : list Listing.t;
  bookings : list Booking.t;
  reviews : list Review.t
}.

(** The writable fields of [BookingSerializer]: [fields] minus
    [read_only_fields], minus the fields declared [read_only=True]
    ([listing], [guest]) and the [ReadOnlyField] [duration_days]. *)
Module BookingData.
Record t : Type := make {
  listing_id : UUID;
  check_in_date : date;
  check_out_date : date;
  number_of_guests : Z;
  status : option Status       (* optional: the model field has a default *)
}.
End BookingData.

(** What [models.py] declares and the code under study relies on: the default
    of [Booking.status], whatever makes [objects.create] raise, and the
    validators the serializer fields take from the model fields.
    A [ModelSerializer] runs every field's own validation in
    [to_internal_value], before [validate] is called:
    [Booking_fields_valid] answers for the writable fields of a booking
    (the range of [number_of_guests], the dates), [Review_rating_field]
    for the integer field [rating], and [Review_comment_field] for the text
    field [comment], whose validated value is the trimmed text ([None]
    when a validator refuses it: blank, NUL character, length). *)
Record Models : Type := mkModels {
  Booking_status_default : Status;
  Booking_accepts : list Booking.t -> Booking.t -> bool;
  Review_accepts : list Review.t -> Review.t -> bool;
  Booking_fields_valid : BookingData.t -> bool;
  Review_rating_field : Z -> bool;
  Review_comment_field : string -> option string
}.

(** A [datetime.date]: ordinals of 0001-01-01 .. 9999-12-31. *)
Definition date_ok (d : date) : Prop := 1 <= d <= 3652059.

(** The widest range an integer field of a Django model is validated
    against: a signed 64-bit column. *)
Definition int64_ok (n : Z) : bool :=
  (- 2 ^ 63 <=? n) && (n <=? 2 ^ 63 - 1).

(** [str.isspace()] of an ASCII character. *)
Definition ascii_isspace (c : ascii) : bool :=
  let n := nat_of_ascii c in
  ((9 <=? n)%nat && (n <=? 13)%nat) || ((28 <=? n)%nat && (n <=? 32)%nat).

(** [str.lstrip()], [str.rstrip()] and [str.strip()] on ASCII text. *)
Fixpoint lstrip (s : string) : string :=
  match s with
  | EmptyString => EmptyString
  | String c rest => if ascii_isspace c then lstrip rest else s
  end.

Fixpoint rstrip (s : string) : string :=
  match s with
  | EmptyString => EmptyString
  | String c rest =>
      match rstrip rest with
      | EmptyString => if ascii_isspace c then EmptyString
                       else String c EmptyString
      | kept => String c kept
      end
  end.

Definition strip (s : string) : string := rstrip (lstrip s).

(** The string holds the character NUL. *)
Fixpoint has_nul (s : string) : bool :=
  match s with
  | EmptyString => false
  | String c rest => (nat_of_ascii c =? 0)%nat || has_nul rest
  end.

(** [CharField.run_validation] of a required, non-blank text field: the
    text is trimmed; a blank text and a text with a NUL character are
    refused. *)
Definition required_text_field (text : string) : option string :=
  match strip text with
  | EmptyString => None
  | trimmed => if has_nul trimmed then None else Some trimmed
  end.

(** The fields of a booking as a stand-in model declares them: dates, and
    an integer guest count. *)
Definition standard_booking_fields (d : BookingData.t) : bool :=
  (1 <=? BookingData.check_in_date d)
  && (BookingData.check_in_date d <=? 3652059)
  && (1 <=? BookingData.check_out_date d)
  && (BookingData.check_out_date d <=? 3652059)
  && int64_ok (BookingData.number_of_guests d).

(** Modelled from the spec: [listings/models.py] is missing.  The
    specification gives [pending] as the initial status of a booking
    (section 4.1) and describes the serializer's sequential test as the
    only overlap check of the source (sections 5 and 9); no storage
    constraint is described, so [objects.create] is a plain insert.  The
    specification gives a booking dates and an integer guest count, and a
    review an integer rating and a comment text (section 3): the fields
    carry the validation every such field has, and nothing narrower. *)
Definition spec_models : Models :=
  mkModels pending (fun _ _ => true) (fun _ _ => true)
           standard_booking_fields int64_ok required_text_field.

(** ** ORM queries *)

(** [Listing.objects.get(listing_id=i)] *)
Definition Listing_get (db : DB) (i : UUID) : option Listing.t :=
  find (fun l => Nat.eqb (Listing.listing_id l) i) (listings db).

(** [Booking.objects.get(booking_id=i)] *)
Definition Booking_get (db : DB) (i : UUID) : option Booking.t :=
  find (fun b => Nat.eqb (Booking.booking_id b) i) (bookings db).

(** [queryset.exists()] *)
Definition QuerySet_exists {A : Type} (rows : list A) : bool :=
  match rows with
  | [] => false
  | _ :: _ => true
  end.

(** [queryset.first()] *)
Definition QuerySet_first {A : Type} (rows : list A) : option A := hd_error rows.

(** [Booking.objects.create(...)] *)
Definition Booking_create (M : Models) (rows : list Booking.t) (b : Booking.t)
  : Result (list Booking.t) :=
  if Booking_accepts M rows b then Ok (b :: rows) else Err IntegrityError.

(** [Review.objects.create(...)] *)
Definition Review_create (M : Models) (rows : list Review.t) (r : Review.t)
  : Result (list Review.t) :=
  if Review_accepts M rows r then Ok (r :: rows) else Err IntegrityError.

(** ** BookingSerializer *)

(** A request payload: the writable fields, and values a client may send
    under the names of read-only fields. *)
Module BookingRequest.
Record t : Type := make {
  data : BookingData.t;
  booking_id : option UUID;
  guest : option User;
  total_price : option Decimal.t
}.
End BookingRequest.

(** [to_internal_value]: read-only fields are not read from the payload;
    every writable field runs its own validation, and the errors are raised
    together before [validate] is reached. *)
Definition Booking_to_internal_value (M : Models) (r : BookingRequest.t)
  : Result BookingData.t :=
  if Booking_fields_valid M (BookingRequest.data r)
  then Ok (BookingRequest.data r)
  else raise InvalidField.

(** The filter of [BookingSerializer.validate]:
    [listing=listing, status__in=['confirmed','pending'],
     check_in_date__lt=data['check_out_date'],
     check_out_date__gt=data['check_in_date']]. *)
Definition overlapping (l : Listing.t) (data : BookingData.t) (b : Booking.t)
  : bool :=
  Nat.eqb (Booking.listing b) (Listing.listing_id l)
  && (Status_eqb (Booking.status b) confirmed
      || Status_eqb (Booking.status b) pending)
  && (Booking.check_in_date b <? BookingData.check_out_date data)
  && (BookingData.check_in_date data <? Booking.check_out_date b).

(** [BookingSerializer.validate(self, data)], with [date.today()] given. *)
Definition Booking_validate (today : date) (db : DB) (data : BookingData.t)
  : Result BookingData.t :=
  if BookingData.check_out_date data <=? BookingData.check_in_date data
  then raise InvalidDateRange
  else if BookingData.check_in_date data <? today
  then raise PastDate
  else
    match Listing_get db (BookingData.listing_id data) with
    | None => raise NotFound
    | Some listing =>
        if Listing.max_guests listing <? BookingData.number_of_guests data
        then raise (CapacityExceeded (BookingData.number_of_guests data)
                                     (Listing.max_guests listing))
        else if negb (Listing.available listing)
        then raise ListingUnavailable
        else
          let overlapping_bookings :=
            filter (overlapping listing data) (bookings db) in
          if QuerySet_exists overlapping_bookings
          then raise DateConflict
          else Ok data
    end.

(** [BookingSerializer.create(self, validated_data)]; [user] is
    [self.context['request'].user] and [new_id] the primary key the model
    gives the row.  Returns the instance and the database after the insert. *)
Definition Booking_create_from (M : Models) (user : User) (new_id : UUID)
  (db : DB) (validated_data : BookingData.t) : Result (Booking.t * DB) :=
  match Listing_get db (BookingData.listing_id validated_data) with
  | None => Err DoesNotExist
  | Some listing =>
      let duration := BookingData.check_out_date validated_data
                      - BookingData.check_in_date validated_data in
      let total_price := Decimal.mul_int (Listing.price_per_night listing)
                                         duration in
      let instance :=
        Booking.make new_id
          (Listing.listing_id listing)
          user
          (BookingData.check_in_date validated_data)
          (BookingData.check_out_date validated_data)
          (BookingData.number_of_guests validated_data)
          total_price
          (match BookingData.status validated_data with
           | Some s => s
           | None => Booking_status_default M
           end) in
      rows <- Booking_create M (bookings db) instance ;;
      Ok (instance, mkDB (listings db) rows (reviews db))
  end.

(** [serializer.is_valid(raise_exception=True); serializer.save()] on a
    payload: the booking-creation interface. *)
Definition create_booking (M : Models) (today : date) (user : User)
  (new_id : UUID) (db : DB) (r : BookingRequest.t) : Result (Booking.t * DB) :=
  data <- Booking_to_internal_value M r ;;
  validated_data <- Booking_validate today db data ;;
  Booking_create_from M user new_id db validated_data.

(** ** ReviewSerializer *)

(** The writable fields of [ReviewSerializer]. *)
Module ReviewData.
Record t : Type := make {
  listing_id : UUID;
  booking_id : option UUID;    (* [required=False] *)
  rating : Z;
  comment : string
}.
End ReviewData.

Module ReviewRequest.
Record t : Type := make {
  data : ReviewData.t;
  review_id : option UUID;
  guest : option User
}.
End ReviewRequest.

(** [ReviewSerializer.validate_rating(self, value)] *)
Definition validate_rating (value : Z) : Result Z :=
  if negb ((1 <=? value) && (value <=? 5))
  then raise InvalidRating
  else Ok value.

(** [to_internal_value]: read-only fields are dropped; every writable field
    runs its own validation and then its hook ([validate_rating] for
    [rating]); the errors of all fields are raised together, before
    [validate] is called.  The error is InvalidRating when the hook alone
    has refused, InvalidField when a field's own validation has. *)
Definition Review_to_internal_value (M : Models) (r : ReviewRequest.t)
  : Result ReviewData.t :=
  let d := ReviewRequest.data r in
  let rating :=
    if Review_rating_field M (ReviewData.rating d)
    then validate_rating (ReviewData.rating d)
    else raise InvalidField in
  match Review_comment_field M (ReviewData.comment d) with
  | None => raise InvalidField
  | Some comment =>
      value <- rating ;;
      Ok (ReviewData.make (ReviewData.listing_id d) (ReviewData.booking_id d)
                          value comment)
  end.

(** [Booking.objects.filter(listing=listing, guest=guest, status='completed')] *)
Definition completed_bookings (db : DB) (l : Listing.t) (guest : User)
  : list Booking.t :=
  filter (fun b => Nat.eqb (Booking.listing b) (Listing.listing_id l)
                   && Nat.eqb (Booking.guest b) guest
                   && Status_eqb (Booking.status b) completed)
         (bookings db).

(** [Review.objects.filter(listing=listing, guest=guest)] *)
Definition reviews_by (db : DB) (l : Listing.t) (guest : User) : list Review.t :=
  filter (fun r => Nat.eqb (Review.listing r) (Listing.listing_id l)
                   && Nat.eqb (Review.guest r) guest)
         (reviews db).

(** Python truth of an optional object. *)
Definition truthy {A : Type} (o : option A) : bool :=
  match o with Some _ => true | None => false end.

(** [ReviewSerializer.validate(self, data)]; [instance] is [self.instance]
    ([None] when the serializer creates). *)
Definition Review_validate (instance : option Review.t) (user : User) (db : DB)
  (data : ReviewData.t) : Result ReviewData.t :=
  match Listing_get db (ReviewData.listing_id data) with
  | None => raise NotFound
  | Some listing =>
      let guest := user in
      if negb (QuerySet_exists (completed_bookings db listing guest))
      then raise NotEligible
      else
        let existing_review := QuerySet_first (reviews_by db listing guest) in
        if truthy existing_review && negb (truthy instance)
        then raise DuplicateReview
        else Ok data
  end.

(** [ReviewSerializer.create(self, validated_data)] *)
Definition Review_create_from (M : Models) (user : User) (new_id : UUID)
  (db : DB) (validated_data : ReviewData.t) : Result (Review.t * DB) :=
  match Listing_get db (ReviewData.listing_id validated_data) with
  | None => Err DoesNotExist
  | Some listing =>
      let booking :=
        match ReviewData.booking_id validated_data with
        | Some booking_id =>
            match Booking_get db booking_id with
            | Some b => Some (Booking.booking_id b)
            | None => None                (* except Booking.DoesNotExist: pass *)
            end
        | None => None
        end in
      let instance :=
        Review.make new_id (Listing.listing_id listing) user booking
                    (ReviewData.rating validated_data)
                    (ReviewData.comment validated_data) in
      rows <- Review_create M (reviews db) instance ;;
      Ok (instance, mkDB (listings db) (bookings db) rows)
  end.

(** [is_valid(raise_exception=True); save()] on a payload, creating. *)
Definition create_review (M : Models) (user : User) (new_id : UUID) (db : DB)
  (r : ReviewRequest.t) : Result (Review.t * DB) :=
  data <- Review_to_internal_value M r ;;
  validated_data <- Review_validate None user db data ;;
  Review_create_from M user new_id db validated_data.

(** ** seed.py: Command.create_bookings *)

(** The random values one iteration of the loop consumes, in the order the
    code draws them, and the primary key of the new row. *)
Record Draw : Type := mkDraw {
  draw_listing : nat;       (* random.choice(listings): position *)
  draw_guest : nat;         (* random.choice([...]): position *)
  draw_days_back : Z;       (* random.randint(0, 180) *)
  draw_duration : Z;        (* random.randint(1, 14) *)
  draw_num_guests : Z;      (* random.randint(1, min(max_guests, 6)) *)
  draw_status : nat;        (* random.choices(...)[0]: position *)
  draw_id : UUID
}.

(** [random.choice(seq)] returning the element at the drawn position; an
    empty sequence raises IndexError. *)
Definition random_choice {A : Type} (seq : list A) (pos : nat) : Result A :=
  match nth_error seq pos with
  | Some x => Ok x
  | None => Err IndexError
  end.

(** [random.randint(a, b)] returning the drawn value; an empty range raises
    ValueError. *)
Definition random_randint (a b drawn : Z) : Result Z :=
  if b <? a then Err ValueError else Ok drawn.

(** [random.choices(population, weights)[0]] on a non-empty population. *)
Definition random_choices (first : Status) (rest : list Status) (pos : nat)
  : Status :=
  nth pos (first :: rest) first.

(** The status chosen from the dates. *)
Definition seed_status (today start_date end_date : date) (pos : nat) : Status :=
  if end_date <? today
  then random_choices completed [cancelled] pos
  else if (start_date <=? today) && (today <=? end_date)
  then confirmed
  else random_choices pending [confirmed; cancelled; completed] pos.

(** One iteration of the [for] loop.  [acc] is the list [bookings] built so
    far (in append order, newest first here) and the Booking table. *)
Definition seed_booking_step (M : Models) (today : date)
  (listings : list Listing.t) (users : list User)
  (acc : list Booking.t * list Booking.t) (d : Draw)
  : Result (list Booking.t * list Booking.t) :=
  let '(bookings, rows) := acc in
  listing <- random_choice listings (draw_listing d) ;;
  guest <- random_choice
             (filter (fun u => negb (Nat.eqb u (Listing.host listing))) users)
             (draw_guest d) ;;
  days_back <- random_randint 0 180 (draw_days_back d) ;;
  let start_date := today - days_back in
  duration <- random_randint 1 14 (draw_duration d) ;;
  let end_date := start_date + duration in
  num_guests <- random_randint 1 (Z.min (Listing.max_guests listing) 6)
                               (draw_num_guests d) ;;
  let total_price := Decimal.mul_int (Listing.price_per_night listing)
                                     duration in
  let status := seed_status today start_date end_date (draw_status d) in
  let booking :=
    Booking.make (draw_id d) (Listing.listing_id listing) guest
                 start_date end_date num_guests total_price status in
  match Booking_create M rows booking with
  | Ok rows' => Ok (booking :: bookings, rows')
  | Err _ => Ok (bookings, rows)            (* except Exception: continue *)
  end.

Fixpoint seed_booking_loop (M : Models) (today : date)
  (listings : list Listing.t) (users : list User)
  (acc : list Booking.t * list Booking.t) (draws : list Draw)
  : Result (list Booking.t * list Booking.t) :=
  match draws with
  | [] => Ok acc
  | d :: rest =>
      acc' <- seed_booking_step M today listings users acc d ;;
      seed_booking_loop M today listings users acc' rest
  end.

(** [Command.create_bookings(self, count, listings, users)], one draw per
    iteration ([count] is the number of draws), on a Booking table [rows]. *)
Definition create_bookings (M : Models) (today : date) (draws : list Draw)
  (listings : list Listing.t) (users : list User) (rows : list Booking.t)
  : Result (list Booking.t * list Booking.t) :=
  seed_booking_loop M today listings users ([], rows) draws.

(** The draws [random] can return in an iteration. *)
Definition draw_admissible (d : Draw) : Prop :=
  0 <= draw_days_back d <= 180 /\ 1 <= draw_duration d <= 14 /\
  1 <= draw_num_guests d <= 6.

(** * Properties *)

(** ** Vocabulary of the specification *)

(** Half-open intervals [a1,b1) and [a2,b2) overlap. *)
Definition intervals_overlap (a1 b1 a2 b2 : Z) : Prop := a1 < b2 /\ a2 < b1.

(** A booking that holds its dates: status pending or confirmed. *)
Definition active (b : Booking.t) : Prop :=
  Booking.status b = pending \/ Booking.status b = confirmed.

(** Booking [b] is an active booking of listing [l] whose interval overlaps
    [check_in, check_out). *)
Definition conflicts_with (l : UUID) (check_in check_out : date)
  (b : Booking.t) : Prop :=
  Booking.listing b = l /\ active b /\
  intervals_overlap (Booking.check_in_date b) (Booking.check_out_date b)
                    check_in check_out.

(** No two distinct rows are active bookings of one listing with
    overlapping intervals. *)
Definition no_double_booking (rows : list Booking.t) : Prop :=
  forall i j a b,
    i <> j ->
    nth_error rows i = Some a ->
    nth_error rows j = Some b ->
    Booking.listing a = Booking.listing b ->
    active a -> active b ->
    ~ intervals_overlap (Booking.check_in_date a) (Booking.check_out_date a)
                        (Booking.check_in_date b) (Booking.check_out_date b).

(** ** Sample data: the scenario of the specification *)

Module Sample.
(** 2024-06-01 *)
Definition today : date := 739038.
Definition host : User := 10%nat.
Definition alice : User := 11%nat.
Definition bob : User := 12%nat.
Definition price : Decimal.t := Decimal.make false 100 0.
Definition flat : Listing.t := Listing.make 1%nat host price 4 true.
Definition closed_flat : Listing.t := Listing.make 2%nat host price 4 false.
Definition db0 : DB := mkDB [flat; closed_flat] [] [].

Definition request (l : UUID) (check_in check_out : date) (n : Z)
  (s : option Status) : BookingRequest.t :=
  BookingRequest.make (BookingData.make l check_in check_out n s)
                      None None None.

(** Booking A of the scenario: [2024-06-01, 2024-06-05), 2 guests. *)
Definition booking_A : Booking.t :=
  Booking.make 100%nat 1%nat alice today (today + 4) 2
               (Decimal.make false 400 0) pending.
Definition db1 : DB := mkDB [flat; closed_flat] [booking_A] [].
End Sample.

(** A price that fits a DecimalField of [max_digits] digits. *)
Definition price_in_field (max_digits : Z) (p : Decimal.t) : Prop :=
  0 <= Decimal.coefficient p < 10 ^ max_digits.

(** A seed run on an empty Booking table: one listing, two draws of
    that listing, both stays starting today for one night. *)
Module SeedRun.
Definition listings : list Listing.t := [Sample.flat].
Definition users : list User := [Sample.host; Sample.alice; Sample.bob].
Definition draws : list Draw :=
  [ mkDraw 0 0 0 1 2 0 200%nat; mkDraw 0 1 0 1 1 0 201%nat ].
Definition first : Booking.t :=
  Booking.make 200%nat 1%nat Sample.alice Sample.today (Sample.today + 1) 2
               (Decimal.make false 100 0) confirmed.
Definition second : Booking.t :=
  Booking.make 201%nat 1%nat Sample.bob Sample.today (Sample.today + 1) 1
               (Decimal.make false 100 0) confirmed.
End SeedRun.

(** The guest has stayed: a completed booking of the listing by the guest. *)
Definition has_completed_stay (db : DB) (l : UUID) (guest : User) : Prop :=
  exists b, In b (bookings db) /\
    Booking.listing b = l /\ Booking.guest b = guest /\
    Booking.status b = completed.

(** The pair (guest, listing) has a review. *)
Definition has_review (db : DB) (l : UUID) (guest : User) : Prop :=
  exists rv, In rv (reviews db) /\
    Review.listing rv = l /\ Review.guest rv = guest.


Definition rating_ok (v : Z) : Prop := 1 <= v <= 5.

Module SampleReviews.
(** Alice's stay of May 2024, completed. *)
Definition stay : Booking.t :=
  Booking.make 100%nat 1%nat Sample.alice 739010 739014 2
               (Decimal.make false 400 0) completed.
Definition db : DB := mkDB [Sample.flat; Sample.closed_flat] [stay] [].
Definition request (l : UUID) (b : option UUID) (rating : Z)
  : ReviewRequest.t :=
  ReviewRequest.make (ReviewData.make l b rating "Great place"%string)
                     None None.
Definition review (b : option UUID) : Review.t :=
  Review.make 500%nat 1%nat Sample.alice b 5 "Great place"%string.
Definition db_reviewed : DB :=
  mkDB [Sample.flat; Sample.closed_flat] [stay] [review None].
End SampleReviews.

(** The booking [create] attaches for a supplied [booking_id]. *)
Definition attached_booking (db : DB) (booking_id : option UUID) : option UUID :=
  match booking_id with
  | Some i => option_map Booking.booking_id (Booking_get db i)
  | None => None
  end.

(** Side conditions on the sample data. *)
Ltac side := simpl; unfold Sample.today; first [lia | reflexivity].

(** ** ListingSerializer *)

(** The [serializers.ValidationError]s of the two field validators of
    [ListingSerializer]. *)
Inductive ListingError : Type :=
| PriceNotPositive       (* "Price per night must be greater than 0" *)
| MaxGuestsNotPositive.  (* "Maximum guests must be at least 1" *)

(** [value <= 0] for a finite Decimal: negative, or zero of either sign. *)
Definition Decimal_le_zero (d : Decimal.t) : bool :=
  Decimal.sign d || (Decimal.coefficient d =? 0).

(** [ListingSerializer.validate_price_per_night(self, value)] *)
Definition validate_price_per_night (value : Decimal.t)
  : ListingError + Decimal.t :=
  if Decimal_le_zero value then inl PriceNotPositive else inr value.

(** [ListingSerializer.validate_max_guests(self, value)] *)
Definition validate_max_guests (value : Z) : ListingError + Z :=
  if value <=? 0 then inl MaxGuestsNotPositive else inr value.

(** [ListingSerializer.get_total_reviews(self, obj)]: [obj.reviews.count()],
    the reviews whose foreign key is [obj].  ([ListingSummarySerializer] has
    the same method.) *)
Definition get_total_reviews (db : DB) (obj : Listing.t) : nat :=
  List.length
    (filter (fun r => Nat.eqb (Review.listing r) (Listing.listing_id obj))
                 (reviews db)).

(** ** A model layer that refuses conflicting rows *)

(** Row [e] is an active booking of the listing of [b] overlapping it. *)
Definition conflictsb (b e : Booking.t) : bool :=
  Nat.eqb (Booking.listing e) (Booking.listing b)
  && (Status_eqb (Booking.status e) pending
      || Status_eqb (Booking.status e) confirmed)
  && (Booking.check_in_date e <? Booking.check_out_date b)
  && (Booking.check_in_date b <? Booking.check_out_date e).

(** A model layer whose [save] raises on a row that conflicts with the
    table, for comparison with [spec_models]. *)
Definition checking_models : Models :=
  mkModels pending
           (fun rows b => negb (existsb (conflictsb b) rows))
           (fun _ _ => true)
           standard_booking_fields int64_ok required_text_field.

(** ** The rows of a seed run *)

(** The row one iteration of [create_bookings] builds from its draw, the
    listing and the guest it chose. *)
Definition seed_row (today : date) (l : Listing.t) (g : User) (d : Draw)
  : Booking.t :=
  let start_date := today - draw_days_back d in
  let end_date := start_date + draw_duration d in
  Booking.make (draw_id d) (Listing.listing_id l) g start_date end_date
               (draw_num_guests d)
               (Decimal.mul_int (Listing.price_per_night l) (draw_duration d))
               (seed_status today start_date end_date (draw_status d)).

(** Row [b] is what an iteration that reaches [Booking.objects.create]
    builds from draw [d]. *)
Definition seeded_by (today : date) (listings : list Listing.t)
  (users : list User) (d : Draw) (b : Booking.t) : Prop :=
  exists l g,
    nth_error listings (draw_listing d) = Some l /\
    nth_error (filter (fun u => negb (Nat.eqb u (Listing.host l))) users)
              (draw_guest d) = Some g /\
    1 <= Z.min (Listing.max_guests l) 6 /\
    b = seed_row today l g d.

(** The guest count drawn lies in the range [randint] was asked for. *)
Definition guests_draw_in_range (listings : list Listing.t) (d : Draw) : Prop :=
  forall l, nth_error listings (draw_listing d) = Some l ->
    1 <= draw_num_guests d <= Z.min (Listing.max_guests l) 6.

(** ** Python strings *)

(** [str.lower()] on ASCII text: the letters A..Z are mapped to a..z. *)
Definition ascii_lower (c : ascii) : ascii :=
  let n := nat_of_ascii c in
  if (65 <=? n)%nat && (n <=? 90)%nat then ascii_of_nat (n + 32) else c.

Fixpoint lower (s : string) : string :=
  match s with
  | EmptyString => EmptyString
  | String c rest => String (ascii_lower c) (lower rest)
  end.

(** [str(n)] for a non-negative int. *)
Definition str_of_nat (n : nat) : string :=
  NilEmpty.string_of_uint (Nat.to_uint n).

(** [needle in hay] *)
Fixpoint contains (needle hay : string) : bool :=
  String.prefix needle hay
  || match hay with
     | EmptyString => false
     | String _ rest => contains needle rest
     end.

(** ** seed.py: Command.create_users *)

(** The fields of [django.contrib.auth.models.User] the command sets (the
    password is hashed by [create_user] and not modelled). *)
Module Account.
Record t : Type := make {
  id : User;
  username : string;
  email : string;
  first_name : string;
  last_name : string
}.
End Account.

Definition first_names : list string :=
  [ "John"; "Jane"; "Michael"; "Sarah"; "David"; "Emma"; "Chris"; "Lisa";
    "Robert"; "Anna"; "James"; "Maria"; "William"; "Jennifer"; "Daniel" ]%string.

Definition last_names : list string :=
  [ "Smith"; "Johnson"; "Williams"; "Brown"; "Jones"; "Garcia"; "Miller";
    "Davis"; "Rodriguez"; "Martinez"; "Hernandez"; "Lopez"; "Gonzalez" ]%string.

(** The random values of one iteration, and the key of the new row. *)
Record UserDraw : Type := mkUserDraw {
  draw_first_name : nat;    (* random.choice(first_names): position *)
  draw_last_name : nat;     (* random.choice(last_names): position *)
  draw_user_id : User
}.

(** [f"{first_name.lower()}{last_name.lower()}{i+1}"] *)
Definition seed_username (first_name last_name : string) (i : nat) : string :=
  (lower first_name ++ lower last_name ++ str_of_nat (i + 1))%string.

(** [User.objects.filter(username=username).exists()] *)
Definition username_exists (table : list Account.t) (username : string) : bool :=
  QuerySet_exists (filter (fun a => String.eqb (Account.username a) username)
                          table).

(** The body of the loop for index [i]; [acc] is the list [users] (in
    append order) and the User table. *)
Definition seed_user_step (acc : list Account.t * list Account.t) (i : nat)
  (d : UserDraw) : Result (list Account.t * list Account.t) :=
  let '(users, table) := acc in
  first_name <- random_choice first_names (draw_first_name d) ;;
  last_name <- random_choice last_names (draw_last_name d) ;;
  let username := seed_username first_name last_name i in
  let email := (username ++ "@example.com")%string in
  if negb (username_exists table username)
  then
    let user := Account.make (draw_user_id d) username email
                             first_name last_name in
    Ok (users ++ [user], user :: table)
  else Ok (users, table).

Fixpoint seed_user_loop (acc : list Account.t * list Account.t) (i : nat)
  (draws : list UserDraw) : Result (list Account.t * list Account.t) :=
  match draws with
  | [] => Ok acc
  | d :: rest =>
      acc' <- seed_user_step acc i d ;;
      seed_user_loop acc' (S i) rest
  end.

(** [Command.create_users(self, count)], one draw per iteration, on a User
    table: the list returned and the table after the run. *)
Definition create_users (draws : list UserDraw) (table : list Account.t)
  : Result (list Account.t * list Account.t) :=
  seed_user_loop ([], table) 0 draws.

(** ** seed.py: Command.create_reviews *)

Definition review_comments : list string :=
  [ "Great place to stay! Very clean and comfortable. Host was responsive and helpful.";
    "Perfect location with easy access to attractions. The amenities were exactly as described.";
    "Beautiful property with amazing views. Would definitely recommend to others!";
    "Comfortable and well-equipped. Everything we needed for our stay was provided.";
    "Lovely property in a quiet neighborhood. Easy check-in process and great communication.";
    "Exceeded our expectations! The space was even better than the photos showed.";
    "Good value for money. Clean, comfortable, and in a convenient location.";
    "Nice property with thoughtful touches. Host provided excellent local recommendations.";
    "Peaceful and relaxing stay. Perfect for a weekend getaway.";
    "Well-maintained property with modern amenities. Would stay here again!";
    "Decent stay overall. Property was as described and met our basic needs.";
    "Good experience. Host was accommodating and the location worked well for us.";
    "Clean and comfortable with good amenities. A few minor issues but overall positive.";
    "Pleasant stay with friendly host. Property has character and charm.";
    "Solid choice for the price. Nothing fancy but clean and functional." ]%string.

(** The bounds handed to [random.randint] for the rating of a comment. *)
Definition review_rating_range (comment : string) : Z * Z :=
  let c := lower comment in
  if contains "great" c || contains "perfect" c || contains "exceeded" c
  then (4, 5)
  else if contains "decent" c || contains "solid" c
          || contains "minor issues" c
  then (3, 4)
  else (3, 5).

(** The random values of one review, and the key of the new row. *)
Record ReviewDraw : Type := mkReviewDraw {
  draw_comment : nat;       (* random.choice(comments): position *)
  draw_rating : Z;          (* random.randint(..): value *)
  draw_review_id : UUID
}.

(** The [for] loop of [create_reviews].  [hasattr_review rows booking] is
    [hasattr(booking, 'review')], the reverse accessor that [models.py]
    declares; [draws k] holds the random values of the review created when
    [reviews_created = k]. *)
Fixpoint seed_review_loop (M : Models)
  (hasattr_review : list Review.t -> Booking.t -> bool)
  (count : Z) (draws : Z -> ReviewDraw) (attempted_bookings : list Booking.t)
  (reviews_created : Z) (rows : list Review.t) : Result (Z * list Review.t) :=
  match attempted_bookings with
  | [] => Ok (reviews_created, rows)
  | booking :: rest =>
      if count <=? reviews_created
      then Ok (reviews_created, rows)                       (* break *)
      else if hasattr_review rows booking
      then seed_review_loop M hasattr_review count draws rest
                            reviews_created rows            (* continue *)
      else
        let d := draws reviews_created in
        comment <- random_choice review_comments (draw_comment d) ;;
        rating <- random_randint (fst (review_rating_range comment))
                                 (snd (review_rating_range comment))
                                 (draw_rating d) ;;
        rows' <- Review_create M rows
                   (Review.make (draw_review_id d) (Booking.listing booking)
                                (Booking.guest booking)
                                (Some (Booking.booking_id booking))
                                rating comment) ;;
        seed_review_loop M hasattr_review count draws rest
                         (reviews_created + 1) rows'
  end.

(** [Command.create_reviews(self, count, bookings)]; [shuffle] is the
    permutation [random.shuffle] applies.  Returns [reviews_created] and
    the Review table after the run. *)
Definition create_reviews (M : Models)
  (hasattr_review : list Review.t -> Booking.t -> bool)
  (shuffle : list Booking.t -> list Booking.t) (draws : Z -> ReviewDraw)
  (count : Z) (bookings : list Booking.t) (rows : list Review.t)
  : Result (Z * list Review.t) :=
  let completed_bookings :=
    filter (fun b => Status_eqb (Booking.status b) completed) bookings in
  let attempted_bookings := shuffle completed_bookings in
  seed_review_loop M hasattr_review count draws attempted_bookings 0 rows.

(** The reverse accessor of a one-to-one field: the booking has a review
    when a row of the Review table refers to it. *)
Definition one_to_one_review (rows : list Review.t) (b : Booking.t) : bool :=
  existsb (fun r => match Review.booking r with
                    | Some i => Nat.eqb i (Booking.booking_id b)
                    | None => false
                    end) rows.

(** No two distinct reviews refer to one booking. *)
Definition one_review_per_booking (rows : list Review.t) : Prop :=
  forall i j a b k,
    i <> j ->
    nth_error rows i = Some a ->
    nth_error rows j = Some b ->
    Review.booking a = Some k ->
    Review.booking b = Some k ->
    False.

(** ** Characters of a string *)

(** One of the characters 0..9. *)
Definition is_digit (c : ascii) : bool :=
  let n := nat_of_ascii c in (48 <=? n)%nat && (n <=? 57)%nat.

(** Every character of the string satisfies the test. *)
Fixpoint all_chars (test : ascii -> bool) (s : string) : bool :=
  match s with
  | EmptyString => true
  | String c rest => test c && all_chars test rest
  end.

(** A user the command creates, for loop index [i] and User table [table]:
    built from names of the two lists, under a username the table did not
    hold. *)
Definition seeded_user (table : list Account.t) (i : nat) (u : Account.t)
  : Prop :=
  In (Account.first_name u) first_names /\
  In (Account.last_name u) last_names /\
  Account.username u
  = seed_username (Account.first_name u) (Account.last_name u) i /\
  Account.email u = (Account.username u ++ "@example.com")%string /\
  ~ In (Account.username u) (map Account.username table).

(** The usernames of the table were built for loop indexes below [i]. *)
Definition usernames_below (i : nat) (table : list Account.t) : Prop :=
  Forall (fun u => exists f l j,
            In f first_names /\ In l last_names /\ (j < i)%nat /\
            Account.username u = seed_username f l j) table.

(** A review [create_reviews] writes for booking [b]: it takes the
    listing, the guest and the key of [b], a comment of the list, and a
    rating within the bounds chosen for that comment. *)
Definition seeded_review (b : Booking.t) (r : Review.t) : Prop :=
  Review.listing r = Booking.listing b /\
  Review.guest r = Booking.guest b /\
  Review.booking r = Some (Booking.booking_id b) /\
  In (Review.comment r) review_comments.

(** The rating drawn lies within the bounds [randint] was given. *)
Definition rating_draws_in_range (draws : Z -> ReviewDraw) : Prop :=
  forall k comment,
    nth_error review_comments (draw_comment (draws k)) = Some comment ->
    fst (review_rating_range comment) <= draw_rating (draws k)
    <= snd (review_rating_range comment).

(** Sample data for the seed of reviews: Alice's completed stay, no
    shuffling, every review drawn with the first comment and rating 5. *)
Module SeedReviewRun.
Definition shuffle (l : list Booking.t) : list Booking.t := l.
Definition draws (k : Z) : ReviewDraw :=
  mkReviewDraw 0 5 (600 + Z.to_nat k)%nat.
Definition review : Review.t :=
  Review.make 600%nat 1%nat Sample.alice (Some 100%nat) 5
    "Great place to stay! Very clean and comfortable. Host was responsive and helpful.".
(** A stay drawn ten days back for three nights, and the database a seed
    run leaves from it. *)
Definition past_draw : Draw := mkDraw 0 0 10 3 2 0 700%nat.
Definition past_stay : Booking.t :=
  Booking.make 700%nat 1%nat Sample.alice 739028 739031 2
               (Decimal.make false 300 0) completed.
Definition past_review : Review.t :=
  Review.make 600%nat 1%nat Sample.alice (Some 700%nat) 5
    "Great place to stay! Very clean and comfortable. Host was responsive and helpful.".
Definition seeded_db : DB :=
  mkDB (listings Sample.db0) [past_stay] [past_review].
End SeedReviewRun.

(** [handle]: [bookings = self.create_bookings(options['bookings'],
    listings, users)] followed by [self.create_reviews(options['reviews'],
    bookings)], on the Booking and Review tables of [db]; [ls] and [us] are
    the lists [listings] and [users] of [handle]. *)
Definition seed_bookings_then_reviews (M : Models)
  (hasattr_review : list Review.t -> Booking.t -> bool)
  (shuffle : list Booking.t -> list Booking.t) (today : date)
  (booking_draws : list Draw) (review_draws : Z -> ReviewDraw)
  (review_count : Z) (ls : list Listing.t) (us : list User) (db : DB)
  : Result DB :=
  created <- create_bookings M today booking_draws ls us (bookings db) ;;
  written <- create_reviews M hasattr_review shuffle review_draws review_count
                            (rev (fst created)) (reviews db) ;;
  Ok (mkDB (listings db) (snd created) (snd written)).

(** ** Field validation of a review request *)

(** The fields of the request pass their own validation; [comment] is the
    validated text of the comment. *)
Definition Review_fields_pass (M : Models) (d : ReviewData.t)
  (comment : string) : Prop :=
  Review_rating_field M (ReviewData.rating d) = true /\
  Review_comment_field M (ReviewData.comment d) = Some comment.

(** A field of the request fails its own validation. *)
Definition Review_fields_fail (M : Models) (d : ReviewData.t) : Prop :=
  Review_rating_field M (ReviewData.rating d) = false \/
  Review_comment_field M (ReviewData.comment d) = None.

(** The validated data of a request: its values, the comment validated. *)
Definition cleaned (d : ReviewData.t) (comment : string) : ReviewData.t :=
  ReviewData.make (ReviewData.listing_id d) (ReviewData.booking_id d)
                  (ReviewData.rating d) comment.

(** ** Basic facts *)

Lemma Status_eqb_eq (a b : Status) : Status_eqb a b = true <-> a = b.
Proof. destruct a, b; simpl; split; intros H; congruence. Qed.

Lemma Listing_get_id (db : DB) (i : UUID) (l : Listing.t) :
  Listing_get db i = Some l -> Listing.listing_id l = i.
Proof.
  unfold Listing_get. intros H. apply find_some in H.
  destruct H as [_ H]. now apply Nat.eqb_eq in H.
Qed.

Lemma overlapping_iff (l : Listing.t) (data : BookingData.t) (b : Booking.t) :
  overlapping l data b = true <->
  conflicts_with (Listing.listing_id l) (BookingData.check_in_date data)
                 (BookingData.check_out_date data) b.
Proof.
  unfold overlapping, conflicts_with, active, intervals_overlap.
  rewrite !andb_true_iff, orb_true_iff, !Status_eqb_eq, Nat.eqb_eq, !Z.ltb_lt.
  tauto.
Qed.

Lemma QuerySet_exists_filter {A : Type} (f : A -> bool) (rows : list A) :
  QuerySet_exists (filter f rows) = existsb f rows.
Proof.
  induction rows as [|x rows IH]; simpl; auto.
  destruct (f x); simpl; auto.
Qed.

Lemma existsb_overlapping_iff (l : Listing.t) (data : BookingData.t)
  (rows : list Booking.t) :
  QuerySet_exists (filter (overlapping l data) rows) = true <->
  exists b, In b rows /\
    conflicts_with (Listing.listing_id l) (BookingData.check_in_date data)
                   (BookingData.check_out_date data) b.
Proof.
  rewrite QuerySet_exists_filter, existsb_exists.
  split; intros [b [Hin Hb]]; exists b; split; auto;
    now apply overlapping_iff.
Qed.

(** What a passing [validate] has established. *)
Lemma Booking_validate_Ok (today : date) (db : DB) (data v : BookingData.t) :
  Booking_validate today db data = Ok v ->
  v = data /\
  BookingData.check_in_date data < BookingData.check_out_date data /\
  today <= BookingData.check_in_date data /\
  exists l, Listing_get db (BookingData.listing_id data) = Some l /\
    BookingData.number_of_guests data <= Listing.max_guests l /\
    Listing.available l = true /\
    QuerySet_exists (filter (overlapping l data) (bookings db)) = false.
Proof.
  unfold Booking_validate, raise.
  destruct (Z.leb_spec (BookingData.check_out_date data)
                       (BookingData.check_in_date data)); [discriminate|].
  destruct (Z.ltb_spec (BookingData.check_in_date data) today); [discriminate|].
  destruct (Listing_get db (BookingData.listing_id data)) as [l|];
    [|discriminate].
  destruct (Z.ltb_spec (Listing.max_guests l)
                       (BookingData.number_of_guests data)); [discriminate|].
  destruct (Listing.available l) eqn:Hav; simpl; [|discriminate].
  destruct (QuerySet_exists (filter (overlapping l data) (bookings db))) eqn:Hex;
    [discriminate|].
  intros Hok. inversion Hok; subst. repeat split; auto.
  exists l. repeat split; auto.
Qed.

(** A successful creation, taken apart. *)
Lemma create_booking_Ok (M : Models) (today : date) (user : User)
  (new_id : UUID) (db : DB) (r : BookingRequest.t) (b : Booking.t) (db' : DB) :
  create_booking M today user new_id db r = Ok (b, db') ->
  let data := BookingRequest.data r in
  exists l,
    Booking_validate today db data = Ok data /\
    Listing_get db (BookingData.listing_id data) = Some l /\
    b = Booking.make new_id (Listing.listing_id l) user
          (BookingData.check_in_date data) (BookingData.check_out_date data)
          (BookingData.number_of_guests data)
          (Decimal.mul_int (Listing.price_per_night l)
             (BookingData.check_out_date data - BookingData.check_in_date data))
          (match BookingData.status data with
           | Some s => s
           | None => Booking_status_default M
           end) /\
    db' = mkDB (listings db) (b :: bookings db) (reviews db).
Proof.
  intros H data. unfold create_booking, Booking_to_internal_value in H.
  fold data in H.
  destruct (Booking_fields_valid M data); simpl in H; [|discriminate].
  destruct (Booking_validate today db data) as [v|e] eqn:Hv; simpl in H;
    [|discriminate].
  destruct (Booking_validate_Ok _ _ _ Hv) as (-> & _ & _ & l & Hl & _).
  exists l. unfold Booking_create_from in H. rewrite Hl in H.
  unfold Booking_create in H.
  match type of H with
  | context [Booking_accepts M ?rows ?inst] =>
      destruct (Booking_accepts M rows inst); simpl in H; [|discriminate]
  end.
  inversion H; subst. repeat split; auto.
Qed.

(** A successful creation has passed the validation of the fields. *)
Lemma create_booking_fields (M : Models) (today : date) (user : User)
  (new_id : UUID) (db : DB) (r : BookingRequest.t) (b : Booking.t) (db' : DB) :
  create_booking M today user new_id db r = Ok (b, db') ->
  Booking_fields_valid M (BookingRequest.data r) = true.
Proof.
  unfold create_booking, Booking_to_internal_value.
  destruct (Booking_fields_valid M (BookingRequest.data r)); auto.
  discriminate.
Qed.

(** With valid fields, [validate] and [create] decide. *)
Lemma create_booking_valid_fields (M : Models) (today : date) (user : User)
  (new_id : UUID) (db : DB) (r : BookingRequest.t) :
  Booking_fields_valid M (BookingRequest.data r) = true ->
  create_booking M today user new_id db r
  = (validated_data <- Booking_validate today db (BookingRequest.data r) ;;
     Booking_create_from M user new_id db validated_data).
Proof.
  intros Hf. unfold create_booking, Booking_to_internal_value.
  now rewrite Hf.
Qed.

(** With a field refused, neither runs. *)
Lemma create_booking_invalid_fields (M : Models) (today : date) (user : User)
  (new_id : UUID) (db : DB) (r : BookingRequest.t) :
  Booking_fields_valid M (BookingRequest.data r) = false ->
  create_booking M today user new_id db r = raise InvalidField.
Proof.
  intros Hf. unfold create_booking, Booking_to_internal_value.
  now rewrite Hf.
Qed.

(** ** Booking validation *)

Section BookingValidation.

Variable M : Models.
Variables (today : date) (user : User) (new_id : UUID) (db : DB).

(** C2, amended.  A booking-creation request one of whose fields fails
    the field's own validation is refused with the field errors, before
    any of the checks below.  For a request whose fields are valid,
    validation is fail-fast, the first failing check deciding the error,
    in the order: (1) check_out > check_in, else InvalidDateRange; (2)
    check_in >= today, else PastDate; (3) the listing exists, else
    NotFound; (4) guest_count <= max_guests, else CapacityExceeded; (5) the
    listing is available, else ListingUnavailable; (6) no active booking of
    the listing overlaps, else DateConflict; a request passing all six is
    validated.  In particular a request with valid fields and check_out <=
    check_in fails with InvalidDateRange whatever its other inputs. *)
Theorem booking_validation_order (r : BookingRequest.t) :
  let data := BookingRequest.data r in
  let check_in := BookingData.check_in_date data in
  let check_out := BookingData.check_out_date data in
  let n := BookingData.number_of_guests data in
  let result := create_booking M today user new_id db r in
  (Booking_fields_valid M data = false -> result = raise InvalidField) /\
  (Booking_fields_valid M data = true ->
   (check_out <= check_in -> result = raise InvalidDateRange) /\
   (check_in < check_out -> check_in < today -> result = raise PastDate) /\
   (check_in < check_out -> today <= check_in ->
      Listing_get db (BookingData.listing_id data) = None ->
      result = raise NotFound) /\
   (forall l,
      check_in < check_out -> today <= check_in ->
      Listing_get db (BookingData.listing_id data) = Some l ->
      (Listing.max_guests l < n ->
         result = raise (CapacityExceeded n (Listing.max_guests l))) /\
      (n <= Listing.max_guests l -> Listing.available l = false ->
         result = raise ListingUnavailable) /\
      (n <= Listing.max_guests l -> Listing.available l = true ->
         (exists b, In b (bookings db) /\
                    conflicts_with (Listing.listing_id l) check_in check_out b) ->
         result = raise DateConflict) /\
      (n <= Listing.max_guests l -> Listing.available l = true ->
         ~ (exists b, In b (bookings db) /\
                      conflicts_with (Listing.listing_id l) check_in check_out b) ->
         Booking_validate today db data = Ok data))).
Proof.
  intros data check_in check_out n result.
  subst result.
  split; [apply create_booking_invalid_fields|].
  intros Hfields. rewrite create_booking_valid_fields by exact Hfields.
  fold data. unfold Booking_validate. fold check_in check_out n.
  split; [|split; [|split]].
  - intros Hle. apply Z.leb_le in Hle. now rewrite Hle.
  - intros Hlt Hpast.
    apply Z.leb_gt in Hlt. apply Z.ltb_lt in Hpast.
    now rewrite Hlt, Hpast.
  - intros Hlt Hnow Hget.
    apply Z.leb_gt in Hlt. apply Z.ltb_ge in Hnow.
    now rewrite Hlt, Hnow, Hget.
  - intros l Hlt Hnow Hget.
    apply Z.leb_gt in Hlt. apply Z.ltb_ge in Hnow.
    rewrite Hlt, Hnow, Hget.
    split; [|split; [|split]].
    + intros Hcap. apply Z.ltb_lt in Hcap. now rewrite Hcap.
    + intros Hcap Hav. apply Z.ltb_ge in Hcap. now rewrite Hcap, Hav.
    + intros Hcap Hav Hex. apply Z.ltb_ge in Hcap.
      apply (existsb_overlapping_iff l data) in Hex.
      now rewrite Hcap, Hav, Hex.
    + intros Hcap Hav Hno. apply Z.ltb_ge in Hcap.
      rewrite Hcap, Hav. simpl.
      destruct (QuerySet_exists (filter (overlapping l data) (bookings db))) eqn:Hex; auto.
      exfalso. apply Hno. now apply (existsb_overlapping_iff l data).
Qed.

End BookingValidation.


(** C2 as stated fails: a request with check_out <= check_in whose guest
    count no integer field holds is refused with the field errors, not
    with InvalidDateRange. *)
Lemma booking_validation_order_counterexample :
  ~ (forall M today user new_id db r,
       BookingData.check_out_date (BookingRequest.data r)
       <= BookingData.check_in_date (BookingRequest.data r) ->
       create_booking M today user new_id db r = raise InvalidDateRange).
Proof.
  intros H.
  assert (Hle : 739038 <= 739042) by lia.
  specialize (H spec_models Sample.today Sample.alice 101%nat Sample.db0
                (Sample.request 1%nat 739042 739038 (2 ^ 63) None) Hle).
  vm_compute in H. discriminate H.
Qed.

Lemma booking_validation_order_witness :
  let run db l check_in check_out n :=
    create_booking spec_models Sample.today Sample.alice 101%nat db
                   (Sample.request l check_in check_out n None) in
  run Sample.db0 1%nat 739042 739038 (2 ^ 63) = raise InvalidField /\
  run Sample.db0 1%nat 739042 739038 2 = raise InvalidDateRange /\
  run Sample.db0 1%nat 739037 739040 2 = raise PastDate /\
  run Sample.db0 7%nat 739038 739042 2 = raise NotFound /\
  run Sample.db0 1%nat 739038 739042 5 = raise (CapacityExceeded 5 4) /\
  run Sample.db0 2%nat 739038 739042 2 = raise ListingUnavailable /\
  run Sample.db1 1%nat 739040 739043 2 = raise DateConflict /\
  Booking_validate Sample.today Sample.db1
    (BookingData.make 1%nat 739042 739044 2 None)
  = Ok (BookingData.make 1%nat 739042 739044 2 None).
Proof.
  intros run. unfold run.
  pose (thm := fun db l check_in check_out n =>
          proj2 (booking_validation_order spec_models Sample.today
                   Sample.alice 101%nat db
                   (Sample.request l check_in check_out n None))).
  refine (conj _ (conj _ (conj _ (conj _ (conj _ (conj _ (conj _ _))))))).
  - apply (proj1 (booking_validation_order spec_models Sample.today
                    Sample.alice 101%nat Sample.db0
                    (Sample.request 1%nat 739042 739038 (2 ^ 63) None))).
    reflexivity.
  - apply (proj1 (thm Sample.db0 1%nat 739042 739038 2 eq_refl)).
    simpl. lia.
  - apply (proj1 (proj2 (thm Sample.db0 1%nat 739037 739040 2 eq_refl)));
      simpl; unfold Sample.today; lia.
  - apply (proj1 (proj2 (proj2 (thm Sample.db0 7%nat 739038 739042 2
                                    eq_refl))));
      simpl; unfold Sample.today; try lia; reflexivity.
  - destruct (proj2 (proj2 (proj2
       (thm Sample.db0 1%nat 739038 739042 5 eq_refl)))
       Sample.flat) as (Hcap & _);
      [ side | side | side | ].
    apply Hcap. simpl. lia.
  - destruct (proj2 (proj2 (proj2
       (thm Sample.db0 2%nat 739038 739042 2 eq_refl)))
       Sample.closed_flat) as (_ & Hav & _);
      [ side | side | side | ].
    apply Hav; simpl; [lia|reflexivity].
  - destruct (proj2 (proj2 (proj2
       (thm Sample.db1 1%nat 739040 739043 2 eq_refl)))
       Sample.flat) as (_ & _ & Hconf & _);
      [ side | side | side | ].
    apply Hconf; simpl; [lia|reflexivity|].
    exists Sample.booking_A. split; [now left|].
    unfold conflicts_with, active, intervals_overlap, Sample.booking_A,
      Sample.today; simpl.
    repeat split; auto; lia.
  - destruct (proj2 (proj2 (proj2
       (thm Sample.db1 1%nat 739042 739044 2 eq_refl)))
       Sample.flat) as (_ & _ & _ & Hpass);
      [ side | side | side | ].
    apply Hpass; simpl; [lia|reflexivity|].
    intros [b [[Hb|[]] (_ & _ & Ho)]]. subst b.
    unfold intervals_overlap, Sample.booking_A, Sample.today in Ho.
    simpl in Ho. lia.
Defined.

(** ** The overlap test *)

(** A request whose first five checks pass and that no active booking of
    the listing overlaps is validated. *)
Lemma Booking_validate_passes (today : date) (db : DB) (data : BookingData.t)
  (l : Listing.t) :
  BookingData.check_in_date data < BookingData.check_out_date data ->
  today <= BookingData.check_in_date data ->
  Listing_get db (BookingData.listing_id data) = Some l ->
  BookingData.number_of_guests data <= Listing.max_guests l ->
  Listing.available l = true ->
  (forall b, In b (bookings db) -> overlapping l data b = false) ->
  Booking_validate today db data = Ok data.
Proof.
  intros Hlt Hnow Hget Hcap Hav Hno. unfold Booking_validate.
  apply Z.leb_gt in Hlt. apply Z.ltb_ge in Hnow. apply Z.ltb_ge in Hcap.
  rewrite Hlt, Hnow, Hget, Hcap, Hav. simpl.
  destruct (QuerySet_exists (filter (overlapping l data) (bookings db))) eqn:Hex; auto.
  rewrite QuerySet_exists_filter in Hex.
  apply existsb_exists in Hex. destruct Hex as [b [Hin Hb]].
  rewrite (Hno b Hin) in Hb. discriminate.
Qed.

(** A validated request is never turned into a DateConflict by [create]. *)
Lemma validated_not_DateConflict (M : Models) (today : date) (user : User)
  (new_id : UUID) (db : DB) (r : BookingRequest.t) :
  Booking_validate today db (BookingRequest.data r) = Ok (BookingRequest.data r) ->
  create_booking M today user new_id db r <> raise DateConflict.
Proof.
  intros Hv. unfold create_booking, Booking_to_internal_value.
  destruct (Booking_fields_valid M (BookingRequest.data r)); simpl;
    [|discriminate].
  rewrite Hv. simpl. unfold Booking_create_from.
  destruct (Listing_get db _); [|discriminate].
  unfold Booking_create.
  match goal with
  | |- context [Booking_accepts M ?rows ?inst] =>
      destruct (Booking_accepts M rows inst); simpl; discriminate
  end.
Qed.

(** [validate] raises DateConflict exactly when the five checks before
    the overlap test pass and an active booking of the listing overlaps
    the dates asked for. *)
Lemma Booking_validate_DateConflict_iff (today : date) (db : DB)
  (data : BookingData.t) :
  Booking_validate today db data = raise DateConflict <->
  BookingData.check_in_date data < BookingData.check_out_date data /\
  today <= BookingData.check_in_date data /\
  exists l,
    Listing_get db (BookingData.listing_id data) = Some l /\
    BookingData.number_of_guests data <= Listing.max_guests l /\
    Listing.available l = true /\
    exists b, In b (bookings db) /\
      conflicts_with (Listing.listing_id l) (BookingData.check_in_date data)
                     (BookingData.check_out_date data) b.
Proof.
  unfold Booking_validate, raise. split.
  - destruct (Z.leb_spec (BookingData.check_out_date data)
                         (BookingData.check_in_date data)) as [Hle|Hlt];
      [discriminate|].
    destruct (Z.ltb_spec (BookingData.check_in_date data) today)
      as [Hpast|Hnow]; [discriminate|].
    destruct (Listing_get db (BookingData.listing_id data)) as [l|];
      [|discriminate].
    destruct (Z.ltb_spec (Listing.max_guests l)
                         (BookingData.number_of_guests data)) as [Hover|Hcap];
      [discriminate|].
    destruct (Listing.available l) eqn:Hav; simpl; [|discriminate].
    destruct (QuerySet_exists (filter (overlapping l data) (bookings db)))
      eqn:Hex; [|discriminate].
    intros _. apply existsb_overlapping_iff in Hex.
    split; [exact Hlt|]. split; [exact Hnow|]. exists l. auto.
  - intros (Hlt & Hnow & l & Hget & Hcap & Hav & Hex).
    apply Z.leb_gt in Hlt. apply Z.ltb_ge in Hnow. apply Z.ltb_ge in Hcap.
    apply (existsb_overlapping_iff l data) in Hex.
    rewrite Hlt, Hnow, Hget, Hcap, Hav. simpl. now rewrite Hex.
Qed.

(** C5.  The test behind DateConflict is the half-open interval test,
    restricted to the listing's bookings with status pending or confirmed:
    a booking is selected iff existing.check_in < new.check_out and
    existing.check_out > new.check_in.  A booking that touches the new
    interval at an endpoint is not selected, and a request whose
    neighbours on the listing only touch it or lie apart is accepted, not
    rejected with DateConflict.  DateConflict is raised exactly when the
    checks before the overlap test pass and a pending or confirmed booking
    of the listing satisfies the two strict inequalities. *)
Theorem overlap_test_half_open (M : Models) (today : date) (user : User)
  (new_id : UUID) (db : DB) (r : BookingRequest.t) (l : Listing.t) :
  let data := BookingRequest.data r in
  let check_in := BookingData.check_in_date data in
  let check_out := BookingData.check_out_date data in
  (forall b,
     overlapping l data b = true <->
     Booking.listing b = Listing.listing_id l /\
     (Booking.status b = pending \/ Booking.status b = confirmed) /\
     Booking.check_in_date b < check_out /\
     Booking.check_out_date b > check_in) /\
  (forall b,
     Booking.check_out_date b = check_in \/ Booking.check_in_date b = check_out ->
     overlapping l data b = false) /\
  (check_in < check_out ->
   today <= check_in ->
   Listing_get db (BookingData.listing_id data) = Some l ->
   BookingData.number_of_guests data <= Listing.max_guests l ->
   Listing.available l = true ->
   (forall b, In b (bookings db) ->
      Booking.listing b = Listing.listing_id l -> active b ->
      Booking.check_out_date b <= check_in \/
      check_out <= Booking.check_in_date b) ->
   Booking_validate today db data = Ok data /\
   create_booking M today user new_id db r <> raise DateConflict) /\
  (Booking_validate today db data = raise DateConflict <->
   check_in < check_out /\ today <= check_in /\
   exists l0,
     Listing_get db (BookingData.listing_id data) = Some l0 /\
     BookingData.number_of_guests data <= Listing.max_guests l0 /\
     Listing.available l0 = true /\
     exists b, In b (bookings db) /\
       Booking.listing b = Listing.listing_id l0 /\
       (Booking.status b = pending \/ Booking.status b = confirmed) /\
       Booking.check_in_date b < check_out /\
       Booking.check_out_date b > check_in) /\
  (create_booking M today user new_id db r = raise DateConflict <->
   Booking_fields_valid M data = true /\
   Booking_validate today db data = raise DateConflict).
Proof.
  intros data check_in check_out.
  assert (Hiff : forall b,
     overlapping l data b = true <->
     Booking.listing b = Listing.listing_id l /\
     (Booking.status b = pending \/ Booking.status b = confirmed) /\
     Booking.check_in_date b < check_out /\
     Booking.check_out_date b > check_in).
  { intros b. rewrite overlapping_iff.
    unfold conflicts_with, active, intervals_overlap.
    fold check_in check_out. intuition lia. }
  split; [exact Hiff|split; [|split; [|split]]].
  - intros b Htouch.
    destruct (overlapping l data b) eqn:Ho; auto.
    apply Hiff in Ho. lia.
  - intros Hlt Hnow Hget Hcap Hav Hnb.
    assert (Hv : Booking_validate today db data = Ok data).
    { apply Booking_validate_passes with (l := l); auto.
      intros b Hin. destruct (overlapping l data b) eqn:Ho; auto.
      apply Hiff in Ho. destruct Ho as (Hl & Hact & H1 & H2).
      specialize (Hnb b Hin Hl Hact). lia. }
    split; [exact Hv|].
    now apply validated_not_DateConflict.
  - rewrite Booking_validate_DateConflict_iff.
    unfold conflicts_with, active, intervals_overlap.
    fold check_in check_out.
    split.
    + intros (Hlt & Hnow & l0 & Hget & Hcap & Hav & b & Hin & Hl & Hact & Ho).
      split; [exact Hlt|]. split; [exact Hnow|]. exists l0.
      split; [exact Hget|]. split; [exact Hcap|]. split; [exact Hav|].
      exists b. repeat split; auto; lia.
    + intros (Hlt & Hnow & l0 & Hget & Hcap & Hav & b & Hin & Hl & Hact & H1
              & H2).
      split; [exact Hlt|]. split; [exact Hnow|]. exists l0.
      split; [exact Hget|]. split; [exact Hcap|]. split; [exact Hav|].
      exists b. repeat split; auto; lia.
  - split.
    + intros Hres.
      destruct (Booking_fields_valid M data) eqn:Hf.
      * split; [reflexivity|].
        rewrite create_booking_valid_fields in Hres by exact Hf.
        fold data in Hres.
        destruct (Booking_validate today db data) as [v|e] eqn:Hv;
          unfold bind in Hres;
          [|unfold raise in *; inversion Hres; reflexivity].
        exfalso.
        destruct (Booking_validate_Ok _ _ _ Hv) as (-> & _).
        apply (@validated_not_DateConflict M today user new_id db r Hv).
        rewrite create_booking_valid_fields by exact Hf.
        fold data. rewrite Hv. exact Hres.
      * rewrite create_booking_invalid_fields in Hres by exact Hf.
        discriminate Hres.
    + intros [Hf Hv].
      rewrite create_booking_valid_fields by exact Hf.
      fold data. now rewrite Hv.
Qed.

(** Booking C of the scenario, [2024-06-05, 2024-06-07), starts the day
    booking A ends: accepted.  Booking B, [2024-06-03, 2024-06-06), starts
    before A ends: DateConflict. *)
Lemma overlap_test_half_open_witness :
  (Booking_validate Sample.today Sample.db1
     (BookingData.make 1%nat 739042 739044 2 None)
   = Ok (BookingData.make 1%nat 739042 739044 2 None) /\
   create_booking spec_models Sample.today Sample.bob 102%nat Sample.db1
     (Sample.request 1%nat 739042 739044 2 None) <> raise DateConflict) /\
  create_booking spec_models Sample.today Sample.bob 101%nat Sample.db1
    (Sample.request 1%nat 739040 739043 2 None) = raise DateConflict.
Proof.
  split.
  - apply (proj1 (proj2 (proj2
      (overlap_test_half_open spec_models Sample.today Sample.bob 102%nat
         Sample.db1 (Sample.request 1%nat 739042 739044 2 None)
         Sample.flat))));
      try side.
    intros b [Hb|[]] _ _. subst b. left. side.
  - destruct (proj2 (proj2 (proj2
      (overlap_test_half_open spec_models Sample.today Sample.bob 101%nat
         Sample.db1 (Sample.request 1%nat 739040 739043 2 None)
         Sample.flat)))) as (Hvalidate & Hcreate).
    apply Hcreate. split; [reflexivity|].
    apply Hvalidate.
    split; [side|]. split; [side|].
    exists Sample.flat.
    split; [reflexivity|]. split; [side|]. split; [reflexivity|].
    exists Sample.booking_A.
    split; [now left|]. split; [reflexivity|]. split; [now left|].
    split; side.
Defined.

(** The scenario of the specification, run: A is created pending with
    total price 400, B is refused, C is created with total price 200. *)
Example scenario_A :
  create_booking spec_models Sample.today Sample.alice 100%nat Sample.db0
    (Sample.request 1%nat 739038 739042 2 None)
  = Ok (Sample.booking_A, Sample.db1).
Proof. reflexivity. Qed.

Example scenario_B :
  create_booking spec_models Sample.today Sample.bob 101%nat Sample.db1
    (Sample.request 1%nat 739040 739043 2 None)
  = raise DateConflict.
Proof. reflexivity. Qed.

Example scenario_C :
  exists db2,
    create_booking spec_models Sample.today Sample.bob 102%nat Sample.db1
      (Sample.request 1%nat 739042 739044 2 None)
    = Ok (Booking.make 102%nat 1%nat Sample.bob 739042 739044 2
            (Decimal.make false 200 0) pending, db2).
Proof. eexists. reflexivity. Qed.

(** ** The no-double-booking invariant *)

Lemma no_double_booking_nil : no_double_booking [].
Proof. intros i j a b _ Ha. destruct i; discriminate. Qed.

(** Adding a row that conflicts with no row of the table keeps the
    invariant. *)
Lemma no_double_booking_cons (rows : list Booking.t) (b : Booking.t) :
  no_double_booking rows ->
  (forall e, In e rows ->
     ~ conflicts_with (Booking.listing b) (Booking.check_in_date b)
                      (Booking.check_out_date b) e) ->
  no_double_booking (b :: rows).
Proof.
  intros Hinv Hnew i j x y Hij Hx Hy Hl Hax Hay Hov.
  destruct i as [|i], j as [|j]; simpl in Hx, Hy.
  - congruence.
  - inversion Hx; subst x. apply nth_error_In in Hy.
    apply (Hnew y Hy). unfold conflicts_with, intervals_overlap in *.
    repeat split; auto; lia.
  - inversion Hy; subst y. apply nth_error_In in Hx.
    apply (Hnew x Hx). unfold conflicts_with, intervals_overlap in *.
    repeat split; auto; lia.
  - apply (Hinv i j x y); auto.
Qed.

(** X1.  Creation through the serializer keeps the invariant: [validate]
    has refused every request that an active booking of the listing
    overlaps, so a table without double bookings stays without them. *)
Lemma create_booking_keeps_invariant (M : Models) (today : date) (user : User)
  (new_id : UUID) (db : DB) (r : BookingRequest.t) (b : Booking.t) (db' : DB) :
  no_double_booking (bookings db) ->
  create_booking M today user new_id db r = Ok (b, db') ->
  no_double_booking (bookings db').
Proof.
  intros Hinv Hok.
  destruct (create_booking_Ok _ _ _ _ _ _ Hok) as (l & Hv & Hget & Hb & Hdb).
  destruct (Booking_validate_Ok _ _ _ Hv) as (_ & _ & _ & l' & Hget' & _ & _ & Hex).
  rewrite Hget in Hget'. inversion Hget'; subst l'. clear Hget'.
  rewrite Hdb. simpl. apply no_double_booking_cons; auto.
  intros e Hin Hc.
  assert (Ht : QuerySet_exists (filter (overlapping l (BookingRequest.data r))
                                       (bookings db))
               = true).
  { apply existsb_overlapping_iff. exists e. split; auto.
    rewrite Hb in Hc. exact Hc. }
  congruence.
Qed.


Lemma SeedRun_draws_admissible : Forall draw_admissible SeedRun.draws.
Proof. repeat constructor; simpl; lia. Qed.

(** C1 (the seed path).  [create_bookings], run on an empty table with a
    single listing and two admissible draws, stores two confirmed bookings
    of that listing for the same night: the table it leaves breaks the
    invariant that no two pending or confirmed bookings of a listing
    overlap. *)
Theorem seed_breaks_no_double_booking :
  Forall draw_admissible SeedRun.draws /\
  no_double_booking [] /\
  create_bookings spec_models Sample.today SeedRun.draws SeedRun.listings
                  SeedRun.users []
  = Ok ([SeedRun.second; SeedRun.first], [SeedRun.second; SeedRun.first]) /\
  ~ no_double_booking [SeedRun.second; SeedRun.first].
Proof.
  split; [apply SeedRun_draws_admissible|].
  split; [apply no_double_booking_nil|split; [reflexivity|]].
  intros Hinv.
  apply (Hinv 0%nat 1%nat SeedRun.second SeedRun.first); simpl; auto.
  - now right.
  - now right.
  - unfold intervals_overlap, Sample.today. lia.
Qed.

(** X2.  Had the model layer refused rows that conflict with the table,
    the seed loop would keep the invariant: its [except] branch skips the
    refused row and goes on with the next draw. *)
Lemma seed_keeps_invariant_if_model_checks (M : Models) (today : date)
  (listings : list Listing.t) (users : list User) (draws : list Draw) :
  (forall rows b, Booking_accepts M rows b = true ->
     forall e, In e rows ->
       ~ conflicts_with (Booking.listing b) (Booking.check_in_date b)
                        (Booking.check_out_date b) e) ->
  forall acc res,
    no_double_booking (snd acc) ->
    seed_booking_loop M today listings users acc draws = Ok res ->
    no_double_booking (snd res).
Proof.
  intros HM. induction draws as [|d rest IH]; intros acc res Hinv Hrun.
  - simpl in Hrun. inversion Hrun; subst; exact Hinv.
  - simpl in Hrun.
    destruct (seed_booking_step M today listings users acc d) as [acc'|e]
      eqn:Hstep; simpl in Hrun; [|discriminate].
    apply (IH acc' res); auto.
    clear IH Hrun. destruct acc as [bs rows]. simpl in Hinv.
    unfold seed_booking_step in Hstep.
    destruct (random_choice listings (draw_listing d)) as [l|]; simpl in Hstep;
      [|discriminate].
    destruct (random_choice _ (draw_guest d)) as [g|]; simpl in Hstep;
      [|discriminate].
    destruct (random_randint 1 (Z.min _ 6) _) as [n|]; simpl in Hstep;
      [|discriminate].
    unfold Booking_create in Hstep.
    match type of Hstep with
    | context [Booking_accepts M rows ?inst] =>
        destruct (Booking_accepts M rows inst) eqn:Hacc
    end; inversion Hstep; subst acc'; simpl; auto.
    apply no_double_booking_cons; auto.
    exact (HM _ _ Hacc).
Qed.

(** ** The guest of a booking *)

(** C3 (the serializer path).  The host of a listing asks to book it:
    with free dates the request is validated and the booking is created
    with the host as guest; with dates an active booking overlaps it is
    refused with DateConflict.  No check on the guest runs before the
    overlap test. *)
Theorem host_books_own_listing :
  Listing.host Sample.flat = Sample.host /\
  create_booking spec_models Sample.today Sample.host 300%nat Sample.db0
    (Sample.request 1%nat 739038 739042 2 None)
  = Ok (Booking.make 300%nat 1%nat Sample.host 739038 739042 2
          (Decimal.make false 400 0) pending,
        mkDB (listings Sample.db0)
          [Booking.make 300%nat 1%nat Sample.host 739038 739042 2
             (Decimal.make false 400 0) pending]
          []) /\
  create_booking spec_models Sample.today Sample.host 301%nat Sample.db1
    (Sample.request 1%nat 739040 739043 2 None)
  = raise DateConflict.
Proof. repeat split. Qed.

(** The guest stored in a created booking is the requesting user. *)
Lemma created_booking_guest (M : Models) (today : date) (user : User)
  (new_id : UUID) (db : DB) (r : BookingRequest.t) (b : Booking.t) (db' : DB) :
  create_booking M today user new_id db r = Ok (b, db') ->
  Booking.guest b = user.
Proof.
  intros Hok.
  destruct (create_booking_Ok _ _ _ _ _ _ Hok) as (l & _ & _ & Hb & _).
  now rewrite Hb.
Qed.

(** ** The initial status *)




(** ** The total price *)

Lemma ndigits_aux_le (fuel : nat) :
  forall k n, 1 <= k -> 0 <= n < 10 ^ k -> Decimal.ndigits_aux fuel n <= k.
Proof.
  induction fuel as [|f IH]; intros k n Hk Hn;
    cbn [Decimal.ndigits_aux]; [lia|].
  destruct (Z.ltb_spec n 10) as [Hlt|Hge]; [lia|].
  assert (Hk2 : 2 <= k).
  { destruct (Z.eq_dec k 1) as [->|]; [|lia].
    change (10 ^ 1) with 10 in Hn. lia. }
  assert (Hpow : 10 ^ k = 10 * 10 ^ (k - 1)).
  { replace k with (Z.succ (k - 1)) at 1 by lia.
    rewrite Z.pow_succ_r; lia. }
  assert (Hdiv : 0 <= n / 10 < 10 ^ (k - 1)).
  { split; [apply Z.div_pos; lia|].
    apply Z.div_lt_upper_bound; lia. }
  specialize (IH (k - 1) (n / 10)). lia.
Qed.

(** A coefficient within the precision of the context is not rounded. *)
Lemma Decimal_fix_exact (d : Decimal.t) :
  0 <= Decimal.coefficient d < 10 ^ Decimal.prec -> Decimal.fix_ d = d.
Proof.
  intros Hc. unfold Decimal.fix_.
  assert (Hn : Decimal.ndigits (Decimal.coefficient d) <= Decimal.prec).
  { unfold Decimal.ndigits. apply ndigits_aux_le; auto. unfold Decimal.prec. lia. }
  apply Z.leb_le in Hn. now rewrite Hn.
Qed.

Lemma Decimal_mul_int_exact (d : Decimal.t) (n : Z) :
  0 <= Decimal.coefficient d -> 0 < n ->
  Decimal.coefficient d * n < 10 ^ Decimal.prec ->
  Decimal.mul_int d n
  = Decimal.make (Decimal.sign d) (Decimal.coefficient d * n)
                 (Decimal.exponent d).
Proof.
  intros Hc Hn Hp. unfold Decimal.mul_int, Decimal.mul, Decimal.of_int.
  cbn [Decimal.sign Decimal.coefficient Decimal.exponent].
  replace (n <? 0) with false by (symmetry; apply Z.ltb_ge; lia).
  rewrite xorb_false_r, Z.abs_eq, Z.add_0_r by lia.
  apply Decimal_fix_exact.
  cbn [Decimal.coefficient].
  split; [apply Z.mul_nonneg_nonneg; lia|exact Hp].
Qed.

Lemma Decimal_value_scaled (s : bool) (c n e : Z) :
  (Decimal.value (Decimal.make s (c * n) e)
   == Decimal.value (Decimal.make s c e) * inject_Z n)%Q.
Proof.
  unfold Decimal.value. simpl. rewrite inject_Z_mult.
  generalize ((10 # 1) ^ e)%Q. intros p. destruct s; ring.
Qed.

(** The rounding is real: a 28-digit coefficient times 15 loses a digit. *)
Example Decimal_mul_rounds :
  Decimal.mul_int (Decimal.make false 9999999999999999999999999999 0) 15
  = Decimal.make false 1500000000000000000000000000 2.
Proof. reflexivity. Qed.

Section TotalPrice.

(** [max_digits] of the field [Listing.price_per_night]; [models.py]
    declares it.  Twenty-one digits times the longest stay a pair of
    dates can span stay within the 28 digits of the context. *)
Variable max_digits : Z.
Hypothesis max_digits_bound : 0 <= max_digits <= 21.

Lemma nights_times_price_fits (p : Decimal.t) (check_in check_out : date) :
  price_in_field max_digits p -> date_ok check_in -> date_ok check_out ->
  check_in < check_out ->
  Decimal.coefficient p * (check_out - check_in) < 10 ^ Decimal.prec.
Proof.
  unfold price_in_field, date_ok, Decimal.prec. intros Hp Hi Ho Hlt.
  assert (Hpow : 10 ^ max_digits <= 10 ^ 21)
    by (apply Z.pow_le_mono_r; lia).
  assert (H21 : Decimal.coefficient p <= 10 ^ 21 - 1) by lia.
  assert (Hn : check_out - check_in <= 3652058) by lia.
  assert (Hmul : Decimal.coefficient p * (check_out - check_in)
                 <= (10 ^ 21 - 1) * 3652058).
  { apply Z.mul_le_mono_nonneg; lia. }
  eapply Z.le_lt_trans; [exact Hmul|]. reflexivity.
Qed.

Variable M : Models.
Variables (today : date) (user : User) (new_id : UUID) (db : DB).

(** C4.  The total price of a created booking is exactly the listing's
    price per night times the number of whole days from check-in to
    check-out: same sign and exponent, coefficient multiplied, nothing
    rounded; and it does not depend on a total_price sent by the client. *)
Theorem total_price_exact (r : BookingRequest.t) (b : Booking.t) (db' : DB)
  (l : Listing.t) :
  let data := BookingRequest.data r in
  let nights := BookingData.check_out_date data
                - BookingData.check_in_date data in
  let price := Listing.price_per_night l in
  create_booking M today user new_id db r = Ok (b, db') ->
  Listing_get db (BookingData.listing_id data) = Some l ->
  price_in_field max_digits price ->
  date_ok (BookingData.check_in_date data) ->
  date_ok (BookingData.check_out_date data) ->
  Booking.total_price b
  = Decimal.make (Decimal.sign price) (Decimal.coefficient price * nights)
                 (Decimal.exponent price) /\
  (Decimal.value (Booking.total_price b)
   == Decimal.value price * inject_Z nights)%Q /\
  (forall sent,
     create_booking M today user new_id db
       (BookingRequest.make data (BookingRequest.booking_id r)
                            (BookingRequest.guest r) sent)
     = Ok (b, db')).
Proof.
  intros data nights price Hok Hget Hp Hin Hout.
  destruct (create_booking_Ok _ _ _ _ _ _ Hok) as (l' & Hv & Hget' & Hb & _).
  fold data in Hv, Hget', Hb. rewrite Hget in Hget'.
  inversion Hget'; subst l'; clear Hget'.
  destruct (Booking_validate_Ok _ _ _ Hv) as (_ & Hlt & _).
  assert (Htp : Booking.total_price b
                = Decimal.make (Decimal.sign price)
                    (Decimal.coefficient price * nights)
                    (Decimal.exponent price)).
  { rewrite Hb. simpl. fold nights price.
    apply Decimal_mul_int_exact.
    - apply Hp.
    - unfold nights. lia.
    - apply nights_times_price_fits; auto. }
  split; [exact Htp|split].
  - rewrite Htp. destruct price as [s c e]. apply Decimal_value_scaled.
  - intros sent. exact Hok.
Qed.

End TotalPrice.

Lemma total_price_exact_witness :
  Booking.total_price Sample.booking_A = Decimal.make false 400 0.
Proof.
  assert (Hmax : 0 <= 10 <= 21) by lia.
  apply (@total_price_exact 10 Hmax spec_models Sample.today Sample.alice
           100%nat Sample.db0 (Sample.request 1%nat 739038 739042 2 None)
           Sample.booking_A Sample.db1 Sample.flat).
  - reflexivity.
  - reflexivity.
  - unfold price_in_field. simpl. lia.
  - unfold date_ok. simpl. lia.
  - unfold date_ok. simpl. lia.
Defined.

(** ** Reviews *)


Lemma Review_to_internal_value_ok (M : Models) (r : ReviewRequest.t)
  (comment : string) :
  Review_fields_pass M (ReviewRequest.data r) comment ->
  rating_ok (ReviewData.rating (ReviewRequest.data r)) ->
  Review_to_internal_value M r = Ok (cleaned (ReviewRequest.data r) comment).
Proof.
  unfold rating_ok, Review_to_internal_value, validate_rating.
  intros [Hr Hc] [H1 H5].
  apply Z.leb_le in H1, H5. rewrite Hr, Hc, H1, H5. reflexivity.
Qed.

Lemma Review_to_internal_value_bad (M : Models) (r : ReviewRequest.t)
  (comment : string) :
  Review_fields_pass M (ReviewRequest.data r) comment ->
  ~ rating_ok (ReviewData.rating (ReviewRequest.data r)) ->
  Review_to_internal_value M r = raise InvalidRating.
Proof.
  unfold rating_ok, Review_to_internal_value, validate_rating.
  intros [Hr Hc] Hbad. rewrite Hr, Hc.
  destruct (Z.leb_spec 1 (ReviewData.rating (ReviewRequest.data r)));
    destruct (Z.leb_spec (ReviewData.rating (ReviewRequest.data r)) 5);
    simpl; auto; lia.
Qed.

Lemma Review_to_internal_value_invalid (M : Models) (r : ReviewRequest.t) :
  Review_fields_fail M (ReviewRequest.data r) ->
  Review_to_internal_value M r = raise InvalidField.
Proof.
  unfold Review_fields_fail, Review_to_internal_value. intros [Hr|Hc].
  - rewrite Hr.
    destruct (Review_comment_field M _); reflexivity.
  - now rewrite Hc.
Qed.

Lemma Review_to_internal_value_Ok (M : Models) (r : ReviewRequest.t)
  (data : ReviewData.t) :
  Review_to_internal_value M r = Ok data ->
  rating_ok (ReviewData.rating (ReviewRequest.data r)) /\
  exists comment,
    Review_fields_pass M (ReviewRequest.data r) comment /\
    data = cleaned (ReviewRequest.data r) comment.
Proof.
  intros H.
  destruct (Review_rating_field M (ReviewData.rating (ReviewRequest.data r)))
    eqn:Hr;
    [|rewrite Review_to_internal_value_invalid in H by (now left);
      discriminate].
  destruct (Review_comment_field M (ReviewData.comment (ReviewRequest.data r)))
    as [comment|] eqn:Hc;
    [|rewrite Review_to_internal_value_invalid in H by (now right);
      discriminate].
  assert (Hpass : Review_fields_pass M (ReviewRequest.data r) comment)
    by (split; auto).
  destruct (Z.le_gt_cases 1 (ReviewData.rating (ReviewRequest.data r)));
    [destruct (Z.le_gt_cases (ReviewData.rating (ReviewRequest.data r)) 5)|].
  - rewrite (@Review_to_internal_value_ok M r comment Hpass) in H
      by (split; auto).
    inversion H; subst. split; [split; auto|]. exists comment. auto.
  - rewrite (@Review_to_internal_value_bad M r comment Hpass) in H;
      [discriminate|].
    unfold rating_ok. lia.
  - rewrite (@Review_to_internal_value_bad M r comment Hpass) in H;
      [discriminate|].
    unfold rating_ok. lia.
Qed.

Lemma completed_bookings_exist (db : DB) (l : Listing.t) (guest : User) :
  QuerySet_exists (completed_bookings db l guest) = true <->
  has_completed_stay db (Listing.listing_id l) guest.
Proof.
  unfold has_completed_stay, completed_bookings.
  rewrite QuerySet_exists_filter, existsb_exists.
  split; intros [b [Hin Hb]]; exists b; split; auto.
  - rewrite !andb_true_iff, !Nat.eqb_eq, Status_eqb_eq in Hb. tauto.
  - rewrite !andb_true_iff, !Nat.eqb_eq, Status_eqb_eq. tauto.
Qed.

Lemma existing_review_truthy (db : DB) (l : Listing.t) (guest : User) :
  truthy (QuerySet_first (reviews_by db l guest)) = true <->
  has_review db (Listing.listing_id l) guest.
Proof.
  unfold has_review, reviews_by. split.
  - destruct (filter _ (reviews db)) as [|rv rest] eqn:Hf; [discriminate|].
    intros _. assert (Hin : In rv (rv :: rest)) by now left.
    rewrite <- Hf in Hin. apply filter_In in Hin. destruct Hin as [Hin Hb].
    rewrite andb_true_iff, !Nat.eqb_eq in Hb. exists rv. tauto.
  - intros [rv (Hin & Hl & Hg)].
    assert (Hf : In rv (filter
              (fun r => Nat.eqb (Review.listing r) (Listing.listing_id l)
                        && Nat.eqb (Review.guest r) guest) (reviews db))).
    { apply filter_In. split; auto.
      rewrite andb_true_iff, !Nat.eqb_eq. tauto. }
    destruct (filter _ (reviews db)); [destruct Hf|reflexivity].
Qed.

(** The outcome of [validate] on a creating serializer, check by check. *)
Lemma Review_validate_cases (user : User) (db : DB) (data : ReviewData.t) :
  match Listing_get db (ReviewData.listing_id data) with
  | None => Review_validate None user db data = raise NotFound
  | Some l =>
      (~ has_completed_stay db (Listing.listing_id l) user ->
         Review_validate None user db data = raise NotEligible) /\
      (has_completed_stay db (Listing.listing_id l) user ->
         has_review db (Listing.listing_id l) user ->
         Review_validate None user db data = raise DuplicateReview) /\
      (has_completed_stay db (Listing.listing_id l) user ->
         ~ has_review db (Listing.listing_id l) user ->
         Review_validate None user db data = Ok data)
  end.
Proof.
  unfold Review_validate.
  destruct (Listing_get db (ReviewData.listing_id data)) as [l|]; auto.
  pose proof (completed_bookings_exist db l user) as Hc.
  pose proof (existing_review_truthy db l user) as Hr.
  destruct (QuerySet_exists (completed_bookings db l user));
    destruct (truthy (QuerySet_first (reviews_by db l user))); simpl;
    repeat split; intros; auto;
    try (exfalso; intuition congruence).
Qed.


(** [create] on validated data: the instance it builds, handed to the
    model layer. *)
Lemma Review_create_from_eq (M : Models) (user : User) (new_id : UUID)
  (db : DB) (data : ReviewData.t) (l : Listing.t) :
  Listing_get db (ReviewData.listing_id data) = Some l ->
  let instance :=
    Review.make new_id (ReviewData.listing_id data) user
                (attached_booking db (ReviewData.booking_id data))
                (ReviewData.rating data) (ReviewData.comment data) in
  Review_create_from M user new_id db data
  = (if Review_accepts M (reviews db) instance
     then Ok (instance, mkDB (listings db) (bookings db) (instance :: reviews db))
     else Err IntegrityError).
Proof.
  intros Hget instance. unfold Review_create_from. rewrite Hget.
  rewrite (Listing_get_id _ _ Hget).
  assert (Hinst :
    Review.make new_id (ReviewData.listing_id data) user
      match ReviewData.booking_id data with
      | Some booking_id =>
          match Booking_get db booking_id with
          | Some b => Some (Booking.booking_id b)
          | None => None
          end
      | None => None
      end (ReviewData.rating data) (ReviewData.comment data) = instance).
  { reflexivity. }
  rewrite Hinst. unfold Review_create.
  destruct (Review_accepts M (reviews db) instance); reflexivity.
Qed.

(** A successful review creation, taken apart. *)
Lemma create_review_Ok (M : Models) (user : User) (new_id : UUID) (db : DB)
  (r : ReviewRequest.t) (rv : Review.t) (db' : DB) :
  create_review M user new_id db r = Ok (rv, db') ->
  let data := ReviewRequest.data r in
  rating_ok (ReviewData.rating data) /\
  (exists l, Listing_get db (ReviewData.listing_id data) = Some l) /\
  has_completed_stay db (ReviewData.listing_id data) user /\
  ~ has_review db (ReviewData.listing_id data) user /\
  (exists comment,
     Review_fields_pass M data comment /\
     rv = Review.make new_id (ReviewData.listing_id data) user
            (attached_booking db (ReviewData.booking_id data))
            (ReviewData.rating data) comment) /\
  db' = mkDB (listings db) (bookings db) (rv :: reviews db).
Proof.
  intros H data. unfold create_review in H.
  destruct (Review_to_internal_value M r) as [d|e] eqn:Hin; simpl in H;
    [|discriminate].
  destruct (@Review_to_internal_value_Ok M r d Hin)
    as (Hrat & c & Hpass & ->).
  fold data in H, Hpass, Hrat.
  pose proof (Review_validate_cases user db (cleaned data c)) as Hcases.
  change (ReviewData.listing_id (cleaned data c))
    with (ReviewData.listing_id data) in Hcases.
  destruct (Listing_get db (ReviewData.listing_id data)) as [l|] eqn:Hget.
  - pose proof (Listing_get_id _ _ Hget) as Hid. rewrite Hid in Hcases.
    destruct Hcases as (Hne & Hdup & Hpassv).
    assert (Hstay : has_completed_stay db (ReviewData.listing_id data) user).
    { destruct (QuerySet_exists (completed_bookings db l user)) eqn:Hex.
      - apply completed_bookings_exist in Hex. now rewrite Hid in Hex.
      - assert (Hno : ~ has_completed_stay db (ReviewData.listing_id data) user).
        { intros Hs. rewrite <- Hid in Hs.
          apply completed_bookings_exist in Hs. congruence. }
        rewrite (Hne Hno) in H. discriminate. }
    assert (Hnorev : ~ has_review db (ReviewData.listing_id data) user).
    { intros Hrev. rewrite (Hdup Hstay Hrev) in H. discriminate. }
    rewrite (Hpassv Hstay Hnorev) in H. simpl in H.
    assert (Hget' : Listing_get db (ReviewData.listing_id (cleaned data c))
                    = Some l) by exact Hget.
    rewrite (Review_create_from_eq M user new_id db (cleaned data c) Hget')
      in H.
    simpl in H.
    match type of H with
    | context [Review_accepts M ?rows ?inst] =>
        destruct (Review_accepts M rows inst); [|discriminate]
    end.
    inversion H; subst.
    split; [exact Hrat|]. split; [now exists l|].
    split; [exact Hstay|]. split; [exact Hnorev|].
    split; [exists c; split; [exact Hpass|reflexivity]|reflexivity].
  - rewrite Hcases in H. discriminate.
Qed.

(** The outcome of a creation request, check by check. *)
Lemma create_review_cases (M : Models) (user : User) (new_id : UUID) (db : DB)
  (r : ReviewRequest.t) :
  let data := ReviewRequest.data r in
  let l := ReviewData.listing_id data in
  let result := create_review M user new_id db r in
  (Review_fields_fail M data -> result = raise InvalidField) /\
  (forall comment, Review_fields_pass M data comment ->
     (~ rating_ok (ReviewData.rating data) -> result = raise InvalidRating) /\
     (rating_ok (ReviewData.rating data) -> Listing_get db l = None ->
      result = raise NotFound) /\
     (rating_ok (ReviewData.rating data) ->
      (exists listing, Listing_get db l = Some listing) ->
      (~ has_completed_stay db l user -> result = raise NotEligible) /\
      (has_completed_stay db l user -> has_review db l user ->
       result = raise DuplicateReview) /\
      (has_completed_stay db l user -> ~ has_review db l user ->
       result = Review_create_from M user new_id db (cleaned data comment)))).
Proof.
  intros data l result. subst result. unfold create_review.
  split.
  - intros Hfail. now rewrite Review_to_internal_value_invalid.
  - intros comment Hpass.
    pose proof (Review_validate_cases user db (cleaned data comment))
      as Hcases.
    change (ReviewData.listing_id (cleaned data comment)) with l in Hcases.
    split; [|split].
    + intros Hbad.
      now rewrite (@Review_to_internal_value_bad M r comment Hpass Hbad).
    + intros Hrat Hget.
      rewrite (@Review_to_internal_value_ok M r comment Hpass Hrat). simpl.
      fold data. rewrite Hget in Hcases. now rewrite Hcases.
    + intros Hrat [listing Hget].
      rewrite (@Review_to_internal_value_ok M r comment Hpass Hrat). simpl.
      fold data. rewrite Hget, (Listing_get_id _ _ Hget) in Hcases.
      destruct Hcases as (Hne & Hdup & Hpassv).
      split; [|split].
      * intros Hno. now rewrite (Hne Hno).
      * intros Hstay Hrev. now rewrite (Hdup Hstay Hrev).
      * intros Hstay Hno. now rewrite (Hpassv Hstay Hno).
Qed.

Section ReviewGate.

Variable M : Models.
Variables (user : User) (new_id : UUID) (db : DB).

(** C7.  A guest with no completed booking of a listing cannot review
    it: every creation attempt fails and no review is stored.  The error
    is NotEligible, the third check, whenever the checks before it pass
    (fields valid, rating in 1..5, listing found); otherwise it is
    theirs. *)
Theorem no_review_without_completed_stay (r : ReviewRequest.t) :
  let data := ReviewRequest.data r in
  let l := ReviewData.listing_id data in
  ~ has_completed_stay db l user ->
  (forall rv db', create_review M user new_id db r <> Ok (rv, db')) /\
  (Review_fields_fail M data ->
   create_review M user new_id db r = raise InvalidField) /\
  (forall comment, Review_fields_pass M data comment ->
   (rating_ok (ReviewData.rating data) ->
    (exists listing, Listing_get db l = Some listing) ->
    create_review M user new_id db r = raise NotEligible) /\
   (rating_ok (ReviewData.rating data) ->
    Listing_get db l = None ->
    create_review M user new_id db r = raise NotFound) /\
   (~ rating_ok (ReviewData.rating data) ->
    create_review M user new_id db r = raise InvalidRating)).
Proof.
  intros data l Hno.
  destruct (create_review_cases M user new_id db r) as (Hfail & Hpass).
  split; [|split; [exact Hfail|]].
  - intros rv db' Hok.
    destruct (create_review_Ok _ _ _ _ _ Hok) as (_ & _ & Hstay & _).
    exact (Hno Hstay).
  - intros comment Hc.
    destruct (Hpass comment Hc) as (Hbad & Hnf & Hrest).
    split; [|split; [exact Hnf|exact Hbad]].
    intros Hrat Hex. destruct (Hrest Hrat Hex) as (Hne & _).
    exact (Hne Hno).
Qed.

End ReviewGate.

Lemma no_review_without_completed_stay_witness :
  create_review spec_models Sample.bob 500%nat SampleReviews.db
    (SampleReviews.request 1%nat None 5) = raise NotEligible.
Proof.
  destruct (@no_review_without_completed_stay spec_models Sample.bob 500%nat
              SampleReviews.db (SampleReviews.request 1%nat None 5))
    as (_ & _ & Hpass).
  - intros [b ([Hb|[]] & _ & Hg & _)]. subst b. discriminate Hg.
  - destruct (Hpass "Great place"%string) as (Hne & _).
    + split; reflexivity.
    + apply Hne.
      * unfold rating_ok. simpl. lia.
      * exists Sample.flat. reflexivity.
Defined.

(** ** One review per guest and listing *)



Section OneReview.

Variable M : Models.
Variables (user : User) (new_id : UUID) (db : DB).


End OneReview.



(** ** The booking reference of a review *)

Lemma Booking_get_id (db : DB) (i : UUID) (b : Booking.t) :
  Booking_get db i = Some b -> Booking.booking_id b = i /\ In b (bookings db).
Proof.
  unfold Booking_get. intros H. apply find_some in H.
  destruct H as [Hin H]. apply Nat.eqb_eq in H. auto.
Qed.

(** A validated request reaches [create], whose result is the model
    layer's answer on the instance built. *)
Lemma create_review_validated (M : Models) (user : User) (new_id : UUID)
  (db : DB) (r : ReviewRequest.t) (data : ReviewData.t) :
  Review_to_internal_value M r = Ok data ->
  Review_validate None user db data = Ok data ->
  let instance :=
    Review.make new_id (ReviewData.listing_id data) user
                (attached_booking db (ReviewData.booking_id data))
                (ReviewData.rating data) (ReviewData.comment data) in
  create_review M user new_id db r
  = (if Review_accepts M (reviews db) instance
     then Ok (instance, mkDB (listings db) (bookings db) (instance :: reviews db))
     else Err IntegrityError).
Proof.
  intros Hin Hv instance. unfold create_review. rewrite Hin. simpl.
  rewrite Hv. simpl.
  pose proof (Review_validate_cases user db data) as Hcases.
  destruct (Listing_get db (ReviewData.listing_id data)) as [l|] eqn:Hget.
  - now apply Review_create_from_eq with (l := l).
  - rewrite Hcases in Hv. discriminate.
Qed.

Section BookingReference.

Variable M : Models.
Variables (user : User) (new_id : UUID) (db : DB).

(** C9.  A review request that passes validation and carries a
    booking_id: when the id resolves to a booking, that booking is
    attached to the created review; when it does not, the review is
    created all the same, with no booking attached, and no validation
    error reports the bad reference. *)
Theorem booking_reference_resolution (r : ReviewRequest.t)
  (data : ReviewData.t) (bid : UUID) :
  let instance (attached : option UUID) :=
    Review.make new_id (ReviewData.listing_id data) user attached
                (ReviewData.rating data) (ReviewData.comment data) in
  let stored (rv : Review.t) :=
    mkDB (listings db) (bookings db) (rv :: reviews db) in
  Review_to_internal_value M r = Ok data ->
  Review_validate None user db data = Ok data ->
  ReviewData.booking_id data = Some bid ->
  (forall b, Booking_get db bid = Some b ->
     Booking.booking_id b = bid /\ In b (bookings db) /\
     (Review_accepts M (reviews db) (instance (Some bid)) = true ->
      create_review M user new_id db r
      = Ok (instance (Some bid), stored (instance (Some bid))))) /\
  (Booking_get db bid = None ->
     (forall e, create_review M user new_id db r <> raise e) /\
     (Review_accepts M (reviews db) (instance None) = true ->
      create_review M user new_id db r
      = Ok (instance None, stored (instance None))) /\
     (Review_to_internal_value spec_models r = Ok data ->
      create_review spec_models user new_id db r
      = Ok (instance None, stored (instance None)))).
Proof.
  intros instance stored Hin Hv Hbid.
  assert (Hgen : forall M',
    Review_to_internal_value M' r = Ok data ->
    create_review M' user new_id db r
    = (if Review_accepts M' (reviews db)
            (instance (attached_booking db (Some bid)))
       then Ok (instance (attached_booking db (Some bid)),
                stored (instance (attached_booking db (Some bid))))
       else Err IntegrityError)).
  { intros M' Hin'.
    rewrite (@create_review_validated M' user new_id db r data Hin' Hv).
    rewrite Hbid. reflexivity. }
  pose proof (Hgen M Hin) as Hrun.
  split.
  - intros b Hget. destruct (Booking_get_id _ _ Hget) as [Hid Hinb].
    split; [exact Hid|split; [exact Hinb|]].
    intros Hacc. rewrite Hrun. unfold attached_booking.
    rewrite Hget. simpl. rewrite Hid, Hacc. reflexivity.
  - intros Hget.
    assert (Hatt : attached_booking db (Some bid) = None).
    { unfold attached_booking. now rewrite Hget. }
    split; [|split].
    + intros e. rewrite Hrun. unfold raise.
      destruct (Review_accepts M (reviews db) _); discriminate.
    + intros Hacc. rewrite Hrun, Hatt, Hacc. reflexivity.
    + intros Hin'. rewrite (Hgen spec_models Hin'), Hatt. reflexivity.
Qed.

End BookingReference.

Lemma booking_reference_resolution_witness :
  create_review spec_models Sample.alice 500%nat SampleReviews.db
    (SampleReviews.request 1%nat (Some 100%nat) 5)
  = Ok (SampleReviews.review (Some 100%nat),
        mkDB (listings SampleReviews.db) (bookings SampleReviews.db)
             [SampleReviews.review (Some 100%nat)]) /\
  create_review spec_models Sample.alice 500%nat SampleReviews.db
    (SampleReviews.request 1%nat (Some 999%nat) 5)
  = Ok (SampleReviews.review None, SampleReviews.db_reviewed).
Proof.
  split.
  - destruct (@booking_reference_resolution spec_models Sample.alice 500%nat
                SampleReviews.db
                (SampleReviews.request 1%nat (Some 100%nat) 5)
                (ReviewData.make 1%nat (Some 100%nat) 5 "Great place"%string)
                100%nat eq_refl eq_refl eq_refl) as (Hres & _).
    destruct (Hres SampleReviews.stay eq_refl) as (_ & _ & Hcreate).
    apply Hcreate. reflexivity.
  - destruct (@booking_reference_resolution spec_models Sample.alice 500%nat
                SampleReviews.db
                (SampleReviews.request 1%nat (Some 999%nat) 5)
                (ReviewData.make 1%nat (Some 999%nat) 5 "Great place"%string)
                999%nat eq_refl eq_refl eq_refl) as (_ & Hunres).
    destruct (Hunres eq_refl) as (_ & Hcreate & _).
    apply Hcreate. reflexivity.
Defined.

(** ** The guest of a created record *)

Section GuestReference.

Variable M : Models.
Variables (today : date) (user : User) (new_id : UUID) (db : DB).

(** C10.  The guest stored by a successful booking creation or review
    creation is the authenticated requesting user, and two requests that
    differ only in a guest value supplied by the client have the same
    outcome: the supplied guest has no influence. *)
Theorem guest_is_requesting_user :
  (forall r b db',
     create_booking M today user new_id db r = Ok (b, db') ->
     Booking.guest b = user) /\
  (forall r1 r2,
     BookingRequest.data r1 = BookingRequest.data r2 ->
     BookingRequest.booking_id r1 = BookingRequest.booking_id r2 ->
     BookingRequest.total_price r1 = BookingRequest.total_price r2 ->
     create_booking M today user new_id db r1
     = create_booking M today user new_id db r2) /\
  (forall r rv db',
     create_review M user new_id db r = Ok (rv, db') ->
     Review.guest rv = user) /\
  (forall r1 r2,
     ReviewRequest.data r1 = ReviewRequest.data r2 ->
     ReviewRequest.review_id r1 = ReviewRequest.review_id r2 ->
     create_review M user new_id db r1 = create_review M user new_id db r2).
Proof.
  split; [|split; [|split]].
  - intros r b db' Hok. exact (created_booking_guest _ _ _ _ _ _ Hok).
  - intros r1 r2 Hd _ _.
    unfold create_booking, Booking_to_internal_value. now rewrite Hd.
  - intros r rv db' Hok.
    destruct (create_review_Ok _ _ _ _ _ Hok)
      as (_ & _ & _ & _ & (c & _ & Hrv) & _).
    now rewrite Hrv.
  - intros r1 r2 Hd _.
    unfold create_review, Review_to_internal_value. now rewrite Hd.
Qed.

End GuestReference.

Lemma guest_is_requesting_user_witness :
  Booking.guest Sample.booking_A = Sample.alice /\
  create_booking spec_models Sample.today Sample.alice 100%nat Sample.db0
    (BookingRequest.make (BookingData.make 1%nat 739038 739042 2 None)
                         None (Some Sample.bob) None)
  = Ok (Sample.booking_A, Sample.db1) /\
  Review.guest (SampleReviews.review None) = Sample.alice /\
  create_review spec_models Sample.alice 500%nat SampleReviews.db
    (ReviewRequest.make (ReviewData.make 1%nat None 5 "Great place"%string)
                        None (Some Sample.host))
  = Ok (SampleReviews.review None, SampleReviews.db_reviewed).
Proof.
  destruct (guest_is_requesting_user spec_models Sample.today Sample.alice
              100%nat Sample.db0) as (Hb & Hbi & _).
  destruct (guest_is_requesting_user spec_models Sample.today Sample.alice
              500%nat SampleReviews.db) as (_ & _ & Hr & Hri).
  refine (conj _ (conj _ (conj _ _))).
  - apply (Hb (Sample.request 1%nat 739038 739042 2 None) Sample.booking_A
              Sample.db1). reflexivity.
  - rewrite (Hbi (BookingRequest.make
                    (BookingData.make 1%nat 739038 739042 2 None)
                    None (Some Sample.bob) None)
                 (Sample.request 1%nat 739038 739042 2 None)
                 eq_refl eq_refl eq_refl).
    reflexivity.
  - apply (Hr (SampleReviews.request 1%nat None 5) (SampleReviews.review None)
              SampleReviews.db_reviewed). reflexivity.
  - rewrite (Hri (ReviewRequest.make
                    (ReviewData.make 1%nat None 5 "Great place"%string)
                    None (Some Sample.host))
                 (SampleReviews.request 1%nat None 5) eq_refl eq_refl).
    reflexivity.
Defined.


(** * Further properties of the serializers *)

Lemma create_booking_keeps_invariant_witness :
  no_double_booking (bookings Sample.db1).
Proof.
  apply (@create_booking_keeps_invariant spec_models Sample.today Sample.alice
           100%nat Sample.db0 (Sample.request 1%nat 739038 739042 2 None)
           Sample.booking_A Sample.db1).
  - apply no_double_booking_nil.
  - reflexivity.
Defined.

Lemma conflictsb_iff (b e : Booking.t) :
  conflictsb b e = true <->
  conflicts_with (Booking.listing b) (Booking.check_in_date b)
                 (Booking.check_out_date b) e.
Proof.
  unfold conflictsb, conflicts_with, active, intervals_overlap.
  rewrite !andb_true_iff, orb_true_iff, !Status_eqb_eq, Nat.eqb_eq, !Z.ltb_lt.
  tauto.
Qed.

Lemma checking_models_refuses (rows : list Booking.t) (b : Booking.t) :
  Booking_accepts checking_models rows b = true ->
  forall e, In e rows ->
    ~ conflicts_with (Booking.listing b) (Booking.check_in_date b)
                     (Booking.check_out_date b) e.
Proof.
  simpl. intros Hacc e Hin Hc. apply negb_true_iff in Hacc.
  assert (Hex : existsb (conflictsb b) rows = true).
  { apply existsb_exists. exists e. split; auto. now apply conflictsb_iff. }
  congruence.
Qed.

(** With a checking model layer the seed run of [SeedRun] skips its second
    draw, and the table it leaves has no double booking. *)
Lemma seed_keeps_invariant_if_model_checks_witness :
  create_bookings checking_models Sample.today SeedRun.draws SeedRun.listings
                  SeedRun.users []
  = Ok ([SeedRun.first], [SeedRun.first]) /\
  no_double_booking [SeedRun.first].
Proof.
  split; [reflexivity|].
  apply (@seed_keeps_invariant_if_model_checks checking_models Sample.today
           SeedRun.listings SeedRun.users SeedRun.draws
           checking_models_refuses ([], []) ([SeedRun.first], [SeedRun.first])).
  - apply no_double_booking_nil.
  - reflexivity.
Defined.

(** X3.  A booking the serializer creates is well formed: it carries the
    new primary key, its check-out is after its check-in, its check-in is
    not before today, it refers to the requested listing, which exists, is
    available and can take its guests, and no active booking of that
    listing overlaps it.  The creation adds this one row and changes
    nothing else in the database. *)
Theorem created_booking_well_formed (M : Models) (today : date) (user : User)
  (new_id : UUID) (db : DB) (r : BookingRequest.t) (b : Booking.t) (db' : DB) :
  create_booking M today user new_id db r = Ok (b, db') ->
  Booking.booking_id b = new_id /\
  Booking.check_in_date b < Booking.check_out_date b /\
  today <= Booking.check_in_date b /\
  Booking.listing b = BookingData.listing_id (BookingRequest.data r) /\
  (exists l, In l (listings db) /\
     Listing.listing_id l = Booking.listing b /\
     Listing.available l = true /\
     Booking.number_of_guests b <= Listing.max_guests l) /\
  (forall e, In e (bookings db) ->
     ~ conflicts_with (Booking.listing b) (Booking.check_in_date b)
                      (Booking.check_out_date b) e) /\
  listings db' = listings db /\
  bookings db' = b :: bookings db /\
  reviews db' = reviews db.
Proof.
  intros Hok.
  destruct (create_booking_Ok _ _ _ _ _ _ Hok) as (l & Hv & Hget & Hb & Hdb).
  destruct (Booking_validate_Ok _ _ _ Hv)
    as (_ & Hlt & Hnow & l' & Hget' & Hcap & Hav & Hex).
  rewrite Hget in Hget'. inversion Hget'; subst l'. clear Hget'.
  pose proof (Listing_get_id _ _ Hget) as Hid.
  assert (Hin : In l (listings db)).
  { unfold Listing_get in Hget. now apply find_some in Hget. }
  rewrite Hdb, Hb. simpl.
  split; [reflexivity|]. split; [exact Hlt|]. split; [exact Hnow|].
  split; [exact Hid|].
  split; [exists l; auto|].
  split; [|auto].
  intros e He Hc.
  assert (Ht : QuerySet_exists
                 (filter (overlapping l (BookingRequest.data r)) (bookings db))
               = true).
  { apply existsb_overlapping_iff. exists e. split; auto. }
  congruence.
Qed.

Lemma created_booking_well_formed_witness :
  Booking.check_in_date Sample.booking_A < Booking.check_out_date Sample.booking_A
  /\ bookings Sample.db1 = Sample.booking_A :: bookings Sample.db0.
Proof.
  destruct (@created_booking_well_formed spec_models Sample.today Sample.alice
              100%nat Sample.db0 (Sample.request 1%nat 739038 739042 2 None)
              Sample.booking_A Sample.db1 eq_refl)
    as (_ & Hlt & _ & _ & _ & _ & _ & Hrows & _).
  split; [exact Hlt|exact Hrows].
Defined.

(** X4.  Once a booking has been created and is pending or confirmed, a
    later request for the same listing whose dates overlap it, whose
    fields are valid and which passes the checks on its dates and guest
    count, is refused with DateConflict; so is the same request sent a
    second time. *)
Theorem double_booking_refused (M : Models) (today today2 : date)
  (user user2 : User) (id1 id2 : UUID) (db db1 : DB)
  (r1 r2 : BookingRequest.t) (b1 : Booking.t) (l : Listing.t) :
  let d1 := BookingRequest.data r1 in
  let d2 := BookingRequest.data r2 in
  create_booking M today user id1 db r1 = Ok (b1, db1) ->
  active b1 ->
  Listing_get db (BookingData.listing_id d1) = Some l ->
  BookingData.listing_id d2 = BookingData.listing_id d1 ->
  intervals_overlap (BookingData.check_in_date d1) (BookingData.check_out_date d1)
                    (BookingData.check_in_date d2) (BookingData.check_out_date d2) ->
  Booking_fields_valid M d2 = true ->
  BookingData.check_in_date d2 < BookingData.check_out_date d2 ->
  today2 <= BookingData.check_in_date d2 ->
  BookingData.number_of_guests d2 <= Listing.max_guests l ->
  create_booking M today2 user2 id2 db1 r2 = raise DateConflict /\
  create_booking M today user2 id2 db1 r1 = raise DateConflict.
Proof.
  intros d1 d2 Hok Hact Hget Hsame Hov Hf2 Hlt2 Hnow2 Hcap2.
  pose proof (create_booking_fields _ _ _ _ _ _ Hok) as Hf1. fold d1 in Hf1.
  destruct (create_booking_Ok _ _ _ _ _ _ Hok) as (l' & Hv & Hget' & Hb & Hdb).
  fold d1 in Hv, Hget', Hb. rewrite Hget in Hget'.
  inversion Hget'; subst l'; clear Hget'.
  destruct (Booking_validate_Ok _ _ _ Hv)
    as (_ & Hlt & Hnow & l' & Hget' & Hcap & Hav & _).
  rewrite Hget in Hget'. inversion Hget'; subst l'; clear Hget'.
  assert (Hget1 : forall i, Listing_get db1 i = Listing_get db i).
  { intros i. rewrite Hdb. reflexivity. }
  assert (Hin : In b1 (bookings db1)).
  { rewrite Hdb. simpl. now left. }
  assert (Hrefuse : forall t u d,
            Booking_fields_valid M d = true ->
            BookingData.listing_id d = BookingData.listing_id d1 ->
            BookingData.check_in_date d < BookingData.check_out_date d ->
            t <= BookingData.check_in_date d ->
            BookingData.number_of_guests d <= Listing.max_guests l ->
            intervals_overlap (BookingData.check_in_date d1)
                              (BookingData.check_out_date d1)
                              (BookingData.check_in_date d)
                              (BookingData.check_out_date d) ->
            forall r, BookingRequest.data r = d ->
            create_booking M t u id2 db1 r = raise DateConflict).
  { intros t u d Hf Hs Hl Hn Hc Ho r Hr.
    rewrite create_booking_valid_fields by (now rewrite Hr).
    rewrite Hr. unfold Booking_validate.
    apply Z.leb_gt in Hl. apply Z.ltb_ge in Hn. apply Z.ltb_ge in Hc.
    rewrite Hl, Hn, Hs, Hget1, Hget, Hc, Hav. simpl.
    assert (Hex : QuerySet_exists (filter (overlapping l d) (bookings db1))
                  = true).
    { apply existsb_overlapping_iff. exists b1. split; [exact Hin|].
      unfold conflicts_with. rewrite Hb. simpl.
      split; [reflexivity|]. split; [rewrite Hb in Hact; exact Hact|].
      exact Ho. }
    now rewrite Hex. }
  split.
  - apply (Hrefuse today2 user2 d2); auto.
  - apply (Hrefuse today user2 d1); auto.
    unfold intervals_overlap. lia.
Qed.

Lemma double_booking_refused_witness :
  create_booking spec_models (Sample.today + 1) Sample.bob 101%nat Sample.db1
    (Sample.request 1%nat 739040 739043 2 None) = raise DateConflict /\
  create_booking spec_models Sample.today Sample.bob 101%nat Sample.db1
    (Sample.request 1%nat 739038 739042 2 None) = raise DateConflict.
Proof.
  apply (@double_booking_refused spec_models Sample.today (Sample.today + 1)
           Sample.alice Sample.bob 100%nat 101%nat Sample.db0 Sample.db1
           (Sample.request 1%nat 739038 739042 2 None)
           (Sample.request 1%nat 739040 739043 2 None)
           Sample.booking_A Sample.flat).
  - reflexivity.
  - now left.
  - reflexivity.
  - reflexivity.
  - unfold intervals_overlap. simpl. lia.
  - reflexivity.
  - simpl. lia.
  - side.
  - simpl. lia.
Defined.

(** ** Reviews: the update path, what a created review guarantees *)

(** X5.  When the serializer updates a review ([self.instance] set), the
    test for an earlier review is switched off: [validate] never answers
    DuplicateReview, it accepts what the creating serializer accepts and
    also what that one refuses as a duplicate, and every other refusal is
    the same. *)
Theorem review_update_skips_duplicate_check (inst : Review.t) (user : User)
  (db : DB) (data : ReviewData.t) :
  Review_validate (Some inst) user db data <> raise DuplicateReview /\
  (Review_validate None user db data = Ok data ->
   Review_validate (Some inst) user db data = Ok data) /\
  (Review_validate None user db data = raise DuplicateReview ->
   Review_validate (Some inst) user db data = Ok data) /\
  (forall e, e <> DuplicateReview ->
     Review_validate None user db data = raise e ->
     Review_validate (Some inst) user db data = raise e).
Proof.
  unfold Review_validate, raise.
  destruct (Listing_get db (ReviewData.listing_id data)) as [l|].
  - destruct (QuerySet_exists (completed_bookings db l user)); simpl.
    + rewrite andb_false_r.
      destruct (truthy (QuerySet_first (reviews_by db l user))); simpl;
        repeat split; try discriminate; try reflexivity;
        intros e Hne He; inversion He; congruence.
    + repeat split; try discriminate; auto.
  - repeat split; try discriminate; auto.
Qed.

Lemma review_update_skips_duplicate_check_witness :
  Review_validate (Some (SampleReviews.review None)) Sample.alice
    SampleReviews.db_reviewed
    (ReviewData.make 1%nat None 3 "Great place"%string)
  = Ok (ReviewData.make 1%nat None 3 "Great place"%string).
Proof.
  apply (proj1 (proj2 (proj2
    (review_update_skips_duplicate_check (SampleReviews.review None)
       Sample.alice SampleReviews.db_reviewed
       (ReviewData.make 1%nat None 3 "Great place"%string))))).
  reflexivity.
Defined.

(** X6.  A review the serializer creates carries a rating from 1 to 5, the
    requesting user as guest and the requested listing, which exists; its
    guest has a completed booking of that listing and had not reviewed it;
    a booking reference it carries is the key of a stored booking.  The
    creation adds this one row and changes nothing else. *)
Theorem created_review_well_formed (M : Models) (user : User) (new_id : UUID)
  (db : DB) (r : ReviewRequest.t) (rv : Review.t) (db' : DB) :
  create_review M user new_id db r = Ok (rv, db') ->
  Review.review_id rv = new_id /\
  1 <= Review.rating rv <= 5 /\
  Review.guest rv = user /\
  Review.listing rv = ReviewData.listing_id (ReviewRequest.data r) /\
  (exists l, In l (listings db) /\ Listing.listing_id l = Review.listing rv) /\
  has_completed_stay db (Review.listing rv) user /\
  ~ has_review db (Review.listing rv) user /\
  (forall i, Review.booking rv = Some i ->
     exists b, In b (bookings db) /\ Booking.booking_id b = i) /\
  listings db' = listings db /\
  bookings db' = bookings db /\
  reviews db' = rv :: reviews db.
Proof.
  intros Hok.
  destruct (create_review_Ok _ _ _ _ _ Hok)
    as (Hrat & [l Hget] & Hstay & Hno & (c & _ & Hrv) & Hdb).
  assert (Hin : In l (listings db)).
  { unfold Listing_get in Hget. now apply find_some in Hget. }
  pose proof (Listing_get_id _ _ Hget) as Hid.
  assert (Hf1 : Review.review_id rv = new_id) by now rewrite Hrv.
  assert (Hf2 : Review.rating rv
                = ReviewData.rating (ReviewRequest.data r)) by now rewrite Hrv.
  assert (Hf3 : Review.guest rv = user) by now rewrite Hrv.
  assert (Hf4 : Review.listing rv
                = ReviewData.listing_id (ReviewRequest.data r))
    by now rewrite Hrv.
  assert (Hf5 : Review.booking rv
                = attached_booking db
                    (ReviewData.booking_id (ReviewRequest.data r)))
    by now rewrite Hrv.
  rewrite Hdb, Hf2, Hf4, Hf5. simpl.
  split; [exact Hf1|]. split; [exact Hrat|]. split; [exact Hf3|].
  split; [reflexivity|]. split; [exists l; auto|].
  split; [exact Hstay|]. split; [exact Hno|].
  split; [|auto].
  intros i Hi. unfold attached_booking in Hi.
  destruct (ReviewData.booking_id (ReviewRequest.data r)) as [j|];
    [|discriminate].
  destruct (Booking_get db j) as [b|] eqn:Hb; [|discriminate].
  simpl in Hi. inversion Hi; subst i.
  destruct (Booking_get_id _ _ Hb) as [_ Hinb]. exists b. auto.
Qed.

Lemma created_review_well_formed_witness :
  1 <= Review.rating (SampleReviews.review None) <= 5 /\
  reviews SampleReviews.db_reviewed
  = SampleReviews.review None :: reviews SampleReviews.db.
Proof.
  destruct (@created_review_well_formed spec_models Sample.alice 500%nat
              SampleReviews.db (SampleReviews.request 1%nat None 5)
              (SampleReviews.review None) SampleReviews.db_reviewed eq_refl)
    as (_ & Hrat & _ & _ & _ & _ & _ & _ & _ & _ & Hrows).
  split; [exact Hrat|exact Hrows].
Defined.

(** X7.  [get_total_reviews] follows the creations: a created review
    raises the count of its listing by one and leaves the count of every
    other listing as it was; creating a booking changes no count. *)
Theorem total_reviews_after_creation (M : Models) (today : date) (user : User)
  (new_id : UUID) (db : DB) (obj : Listing.t) :
  (forall r rv db',
     create_review M user new_id db r = Ok (rv, db') ->
     (Listing.listing_id obj = ReviewData.listing_id (ReviewRequest.data r) ->
      get_total_reviews db' obj = S (get_total_reviews db obj)) /\
     (Listing.listing_id obj <> ReviewData.listing_id (ReviewRequest.data r) ->
      get_total_reviews db' obj = get_total_reviews db obj)) /\
  (forall r b db',
     create_booking M today user new_id db r = Ok (b, db') ->
     get_total_reviews db' obj = get_total_reviews db obj).
Proof.
  split.
  - intros r rv db' Hok.
    destruct (create_review_Ok _ _ _ _ _ Hok)
      as (_ & _ & _ & _ & (c & _ & Hrv) & Hdb).
    assert (Hf : Review.listing rv
                 = ReviewData.listing_id (ReviewRequest.data r))
      by now rewrite Hrv.
    rewrite Hdb. unfold get_total_reviews. simpl. rewrite Hf.
    split; intros Hl.
    + rewrite Hl, Nat.eqb_refl. reflexivity.
    + destruct (Nat.eqb_spec (ReviewData.listing_id (ReviewRequest.data r))
                             (Listing.listing_id obj)); [congruence|].
      reflexivity.
  - intros r b db' Hok.
    destruct (create_booking_Ok _ _ _ _ _ _ Hok) as (_ & _ & _ & _ & Hdb).
    rewrite Hdb. reflexivity.
Qed.

Lemma total_reviews_after_creation_witness :
  get_total_reviews SampleReviews.db_reviewed Sample.flat = 1%nat /\
  get_total_reviews SampleReviews.db_reviewed Sample.closed_flat = 0%nat.
Proof.
  destruct (proj1 (total_reviews_after_creation spec_models Sample.today
              Sample.alice 500%nat SampleReviews.db Sample.flat)
              (SampleReviews.request 1%nat None 5) (SampleReviews.review None)
              SampleReviews.db_reviewed eq_refl) as (Hone & _).
  destruct (proj1 (total_reviews_after_creation spec_models Sample.today
              Sample.alice 500%nat SampleReviews.db Sample.closed_flat)
              (SampleReviews.request 1%nat None 5) (SampleReviews.review None)
              SampleReviews.db_reviewed eq_refl) as (_ & Hother).
  split.
  - rewrite Hone; reflexivity.
  - rewrite Hother; [reflexivity|]. simpl. discriminate.
Defined.

(** ** ListingSerializer: the field validators *)

Lemma Decimal_value_sign (d : Decimal.t) :
  0 <= Decimal.coefficient d ->
  ((0 < Decimal.value d)%Q <->
   Decimal.sign d = false /\ 0 < Decimal.coefficient d).
Proof.
  intros Hc. unfold Decimal.value.
  assert (Hp : (0 < (10 # 1) ^ Decimal.exponent d)%Q).
  { apply Qpower_0_lt. reflexivity. }
  set (p := ((10 # 1) ^ Decimal.exponent d)%Q) in *.
  assert (Hq : (0 <= inject_Z (Decimal.coefficient d))%Q).
  { unfold Qle. simpl. lia. }
  assert (Hq0 : 0 < Decimal.coefficient d ->
                (0 < inject_Z (Decimal.coefficient d))%Q).
  { intros H. unfold Qlt. simpl. lia. }
  assert (Hq1 : (0 < inject_Z (Decimal.coefficient d))%Q ->
                0 < Decimal.coefficient d).
  { unfold Qlt. simpl. lia. }
  set (q := inject_Z (Decimal.coefficient d)) in *.
  destruct (Decimal.sign d); split.
  - intros H. exfalso.
    assert (Hqp : (0 <= q * p)%Q) by (apply Qmult_le_0_compat; auto using Qlt_le_weak).
    assert (Heq : (-1 * q * p == - (q * p))%Q) by ring.
    rewrite Heq in H. apply (Qlt_not_le _ _ H).
    apply (Qopp_le_compat 0 (q * p)) in Hqp. exact Hqp.
  - intros [Hs _]. discriminate.
  - intros H. split; auto. apply Hq1.
    assert (Heq : (1 * q * p == q * p)%Q) by ring.
    rewrite Heq in H.
    destruct (Qlt_le_dec 0 q) as [Hpos|Hneg]; auto.
    exfalso. assert (Hz : (q == 0)%Q) by (apply Qle_antisym; auto).
    rewrite Hz in H. assert (H0 : (0 * p == 0)%Q) by ring.
    rewrite H0 in H. exact (Qlt_irrefl _ H).
  - intros [_ Hpos]. assert (Heq : (1 * q * p == q * p)%Q) by ring.
    rewrite Heq. apply Qmult_lt_0_compat; auto.
Qed.

(** X8.  The two field validators of [ListingSerializer] accept exactly
    the positive values and hand them back unchanged: a price is accepted
    iff the number it denotes is greater than 0 (a zero of either sign and
    every negative price are refused), a guest limit iff it is at least 1. *)
Theorem listing_validators_accept_positive (price : Decimal.t) (n : Z) :
  0 <= Decimal.coefficient price ->
  (validate_price_per_night price = inr price <->
   (0 < Decimal.value price)%Q) /\
  (validate_price_per_night price = inl PriceNotPositive <->
   (Decimal.value price <= 0)%Q) /\
  (validate_max_guests n = inr n <-> 1 <= n) /\
  (validate_max_guests n = inl MaxGuestsNotPositive <-> n <= 0).
Proof.
  intros Hc. pose proof (Decimal_value_sign price Hc) as Hv.
  unfold validate_price_per_night, validate_max_guests, Decimal_le_zero.
  assert (Hprice :
    (if Decimal.sign price || (Decimal.coefficient price =? 0)
     then inl PriceNotPositive else inr price) = inr price <->
    (0 < Decimal.value price)%Q).
  { rewrite Hv.
    destruct (Decimal.sign price); simpl.
    - split; [discriminate|intros [H _]; discriminate].
    - destruct (Z.eqb_spec (Decimal.coefficient price) 0) as [H0|H0].
      + split; [discriminate|]. intros [_ H]. lia.
      + split; auto. intros _. split; auto. lia. }
  split; [exact Hprice|]. split.
  - split.
    + intros H. apply Qnot_lt_le. intros Hpos. apply Hprice in Hpos.
      congruence.
    + intros Hle.
      destruct (Decimal.sign price || (Decimal.coefficient price =? 0)) eqn:E;
        auto.
      exfalso. apply (Qle_not_lt _ _ Hle). now apply Hprice.
  - split.
    + destruct (Z.leb_spec n 0); split; intros; try discriminate; auto; lia.
    + destruct (Z.leb_spec n 0); split; intros; try discriminate; auto; lia.
Qed.

Lemma listing_validators_accept_positive_witness :
  validate_price_per_night Sample.price = inr Sample.price /\
  validate_price_per_night (Decimal.make true 0 (-2))
  = inl PriceNotPositive.
Proof.
  split.
  - apply (proj1 (listing_validators_accept_positive Sample.price 4
                    ltac:(simpl; lia))).
    reflexivity.
  - apply (proj1 (proj2 (listing_validators_accept_positive
                           (Decimal.make true 0 (-2)) 4 ltac:(simpl; lia)))).
    unfold Decimal.value, Qle. simpl. lia.
Defined.

(** ** A validated price gives a positive total *)

(** X9.  For a listing whose price passes [validate_price_per_night], the
    total price of every booking the serializer creates is greater than 0;
    it would itself pass the price validator. *)
Theorem total_price_positive (max_digits : Z) (M : Models) (today : date)
  (user : User) (new_id : UUID) (db : DB) (r : BookingRequest.t)
  (b : Booking.t) (db' : DB) (l : Listing.t) :
  0 <= max_digits <= 21 ->
  create_booking M today user new_id db r = Ok (b, db') ->
  Listing_get db (BookingData.listing_id (BookingRequest.data r)) = Some l ->
  validate_price_per_night (Listing.price_per_night l)
  = inr (Listing.price_per_night l) ->
  price_in_field max_digits (Listing.price_per_night l) ->
  date_ok (BookingData.check_in_date (BookingRequest.data r)) ->
  date_ok (BookingData.check_out_date (BookingRequest.data r)) ->
  (0 < Decimal.value (Booking.total_price b))%Q /\
  validate_price_per_night (Booking.total_price b) = inr (Booking.total_price b).
Proof.
  intros Hmax Hok Hget Hval Hfield Hin Hout.
  destruct (create_booking_Ok _ _ _ _ _ _ Hok) as (l' & Hv & Hget' & Hb & _).
  rewrite Hget in Hget'. inversion Hget'; subst l'; clear Hget'.
  destruct (Booking_validate_Ok _ _ _ Hv) as (_ & Hlt & _).
  set (data := BookingRequest.data r) in *.
  set (price := Listing.price_per_night l) in *.
  set (nights := BookingData.check_out_date data
                 - BookingData.check_in_date data) in *.
  assert (Hsign : Decimal.sign price = false /\ 0 < Decimal.coefficient price).
  { unfold validate_price_per_night, Decimal_le_zero in Hval.
    destruct (Decimal.sign price); simpl in Hval; [discriminate|].
    destruct (Z.eqb_spec (Decimal.coefficient price) 0); [discriminate|].
    split; auto. unfold price_in_field in Hfield. lia. }
  assert (Htp : Booking.total_price b
                = Decimal.make false (Decimal.coefficient price * nights)
                               (Decimal.exponent price)).
  { rewrite Hb. simpl. fold price nights.
    rewrite Decimal_mul_int_exact.
    - now rewrite (proj1 Hsign).
    - apply Hfield.
    - unfold nights. lia.
    - apply nights_times_price_fits with (max_digits := max_digits); auto. }
  assert (Hpos : 0 < Decimal.coefficient price * nights).
  { apply Z.mul_pos_pos; [apply Hsign|unfold nights; lia]. }
  rewrite Htp. split.
  - apply Decimal_value_sign; simpl; [lia|auto].
  - unfold validate_price_per_night, Decimal_le_zero. simpl.
    destruct (Z.eqb_spec (Decimal.coefficient price * nights) 0); [lia|].
    reflexivity.
Qed.

Lemma total_price_positive_witness :
  (0 < Decimal.value (Booking.total_price Sample.booking_A))%Q.
Proof.
  apply (@total_price_positive 10 spec_models Sample.today Sample.alice
           100%nat Sample.db0 (Sample.request 1%nat 739038 739042 2 None)
           Sample.booking_A Sample.db1 Sample.flat).
  - lia.
  - reflexivity.
  - reflexivity.
  - reflexivity.
  - unfold price_in_field. simpl. lia.
  - unfold date_ok. simpl. lia.
  - unfold date_ok. simpl. lia.
Defined.

(** ** The seed command: what a run stores *)

Section SeedRuns.

Variable M : Models.
Variable today : date.
Variable listings : list Listing.t.
Variable users : list User.

(** One iteration that does not crash has built a row; the row is
    stored and returned, or refused by the model layer and skipped. *)
Lemma seed_booking_step_Ok (bs rows : list Booking.t) (d : Draw)
  (acc' : list Booking.t * list Booking.t) :
  seed_booking_step M today listings users (bs, rows) d = Ok acc' ->
  exists b, seeded_by today listings users d b /\
    ((Booking_accepts M rows b = true /\ acc' = (b :: bs, b :: rows)) \/
     (Booking_accepts M rows b = false /\ acc' = (bs, rows))).
Proof.
  unfold seed_booking_step, random_choice. intros Hstep.
  destruct (nth_error listings (draw_listing d)) as [l|] eqn:Hl;
    simpl in Hstep; [|discriminate].
  destruct (nth_error _ (draw_guest d)) as [g|] eqn:Hg;
    simpl in Hstep; [|discriminate].
  destruct (random_randint 1 (Z.min _ 6) _) as [n|] eqn:Hn;
    simpl in Hstep; [|discriminate].
  unfold random_randint in Hn.
  destruct (Z.ltb_spec (Z.min (Listing.max_guests l) 6) 1) as [Hbad|Hmin];
    [discriminate|].
  inversion Hn; subst n; clear Hn.
  exists (seed_row today l g d). split.
  - exists l, g. auto.
  - unfold Booking_create in Hstep. fold (seed_row today l g d) in Hstep.
    destruct (Booking_accepts M rows (seed_row today l g d));
      inversion Hstep; auto.
Qed.

(** A run that does not crash has put the rows it returns, and no other,
    in front of the table; each comes from one of the draws. *)
Lemma seed_booking_loop_Ok (draws : list Draw) :
  forall acc res,
    seed_booking_loop M today listings users acc draws = Ok res ->
    exists created,
      fst res = created ++ fst acc /\
      snd res = created ++ snd acc /\
      (List.length created <= List.length draws)%nat /\
      ((forall rows b, Booking_accepts M rows b = true) ->
       List.length created = List.length draws) /\
      Forall (fun b => exists d, In d draws /\
                         seeded_by today listings users d b) created.
Proof.
  induction draws as [|d rest IH]; intros acc res Hrun; simpl in Hrun.
  - inversion Hrun; subst. exists []. repeat split; auto.
  - destruct (seed_booking_step M today listings users acc d) as [acc'|e]
      eqn:Hstep; simpl in Hrun; [|discriminate].
    destruct acc as [bs rows].
    destruct (seed_booking_step_Ok _ _ _ Hstep) as (b & Hb & Hcase).
    destruct (IH _ _ Hrun) as (created & Hfst & Hsnd & Hlen & Hall & Hfrom).
    assert (Hfrom' : Forall (fun b0 => exists d0, In d0 (d :: rest) /\
                               seeded_by today listings users d0 b0) created).
    { eapply Forall_impl; [|exact Hfrom].
      intros b0 [d0 [Hd0 Hs0]]. exists d0. split; [now right|exact Hs0]. }
    destruct Hcase as [[Hacc ->]|[Hacc ->]]; simpl in Hfst, Hsnd.
    + exists (created ++ [b]). rewrite <- !app_assoc. simpl.
      split; [exact Hfst|]. split; [exact Hsnd|].
      rewrite length_app. simpl.
      split; [lia|]. split; [intros HM; specialize (Hall HM); lia|].
      apply Forall_app. split; [exact Hfrom'|].
      constructor; [|constructor]. exists d. split; [now left|exact Hb].
    + exists created. simpl.
      split; [exact Hfst|]. split; [exact Hsnd|].
      split; [lia|]. split; [|exact Hfrom'].
      intros HM. rewrite HM in Hacc. discriminate.
Qed.

(** X10.  [create_bookings] returns exactly the rows it has stored: the
    table after the run is the returned bookings followed by the table
    before it.  It stores at most one booking per iteration, and exactly
    one when the model layer refuses nothing. *)
Theorem seed_returns_what_it_stores (draws : list Draw)
  (rows : list Booking.t) (res : list Booking.t * list Booking.t) :
  create_bookings M today draws listings users rows = Ok res ->
  snd res = fst res ++ rows /\
  (List.length (fst res) <= List.length draws)%nat /\
  ((forall rows' b, Booking_accepts M rows' b = true) ->
   List.length (fst res) = List.length draws).
Proof.
  unfold create_bookings. intros Hrun.
  destruct (seed_booking_loop_Ok _ _ Hrun)
    as (created & Hfst & Hsnd & Hlen & Hall & _).
  simpl in Hfst, Hsnd. rewrite app_nil_r in Hfst. subst created.
  auto.
Qed.

(** X11.  Every booking [create_bookings] returns is for one of the
    listings given, by one of the users given, and its guest is not the
    host of its listing.  Its total price is the listing's price times its
    number of nights, the product [BookingSerializer.create] computes. *)
Theorem seed_guest_is_never_host (draws : list Draw) (rows : list Booking.t)
  (res : list Booking.t * list Booking.t) :
  create_bookings M today draws listings users rows = Ok res ->
  Forall (fun b =>
            exists l, In l listings /\
              Booking.listing b = Listing.listing_id l /\
              In (Booking.guest b) users /\
              Booking.guest b <> Listing.host l /\
              Booking.total_price b
              = Decimal.mul_int (Listing.price_per_night l)
                  (Booking.check_out_date b - Booking.check_in_date b))
         (fst res).
Proof.
  unfold create_bookings. intros Hrun.
  destruct (seed_booking_loop_Ok _ _ Hrun)
    as (created & Hfst & _ & _ & _ & Hfrom).
  simpl in Hfst. rewrite app_nil_r in Hfst. rewrite Hfst.
  eapply Forall_impl; [|exact Hfrom].
  intros b (d & _ & l & g & Hl & Hg & _ & ->).
  exists l. apply nth_error_In in Hl, Hg. apply filter_In in Hg.
  destruct Hg as [Hgu Hne]. apply negb_true_iff, Nat.eqb_neq in Hne.
  unfold seed_row. simpl.
  repeat split; auto.
  f_equal. lia.
Qed.

(** X12.  With draws in the ranges the code asks [random] for, every
    booking [create_bookings] returns starts today or up to 180 days ago,
    lasts 1 to 14 nights and has 1 to 6 guests, no more than its listing
    takes.  It is never pending: it is confirmed when its check-out is
    today or later, and completed or cancelled when its check-out is
    past. *)
Theorem seed_dates_and_status (draws : list Draw) (rows : list Booking.t)
  (res : list Booking.t * list Booking.t) :
  Forall draw_admissible draws ->
  Forall (guests_draw_in_range listings) draws ->
  create_bookings M today draws listings users rows = Ok res ->
  Forall (fun b =>
            today - 180 <= Booking.check_in_date b <= today /\
            1 <= Booking.check_out_date b - Booking.check_in_date b <= 14 /\
            1 <= Booking.number_of_guests b <= 6 /\
            (exists l, In l listings /\
               Listing.listing_id l = Booking.listing b /\
               Booking.number_of_guests b <= Listing.max_guests l) /\
            Booking.status b <> pending /\
            (today <= Booking.check_out_date b ->
             Booking.status b = confirmed) /\
            (Booking.check_out_date b < today ->
             Booking.status b = completed \/ Booking.status b = cancelled))
         (fst res).
Proof.
  unfold create_bookings. intros Hadm Hrange Hrun.
  destruct (seed_booking_loop_Ok _ _ Hrun)
    as (created & Hfst & _ & _ & _ & Hfrom).
  simpl in Hfst. rewrite app_nil_r in Hfst. rewrite Hfst.
  eapply Forall_impl; [|exact Hfrom].
  intros b (d & Hd & l & g & Hl & Hg & _ & ->).
  rewrite Forall_forall in Hadm, Hrange.
  destruct (Hadm d Hd) as (Hback & Hdur & Hn).
  pose proof (Hrange d Hd l Hl) as Hnl.
  unfold seed_row. simpl.
  assert (Hstatus :
    let s := seed_status today (today - draw_days_back d)
               (today - draw_days_back d + draw_duration d) (draw_status d) in
    s <> pending /\
    (today <= today - draw_days_back d + draw_duration d -> s = confirmed) /\
    (today - draw_days_back d + draw_duration d < today ->
     s = completed \/ s = cancelled)).
  { unfold seed_status.
    destruct (Z.ltb_spec (today - draw_days_back d + draw_duration d) today)
      as [Hpast|Hnow].
    - assert (Hc : random_choices completed [cancelled] (draw_status d)
                   = completed \/
                   random_choices completed [cancelled] (draw_status d)
                   = cancelled).
      { unfold random_choices. destruct (draw_status d) as [|[|[|n]]]; auto. }
      split; [destruct Hc as [-> | ->]; discriminate|].
      split; [lia|auto].
    - replace (today - draw_days_back d <=? today) with true
        by (symmetry; apply Z.leb_le; lia).
      replace (today <=? today - draw_days_back d + draw_duration d) with true
        by (symmetry; apply Z.leb_le; lia).
      simpl. split; [discriminate|]. split; [auto|lia]. }
  split; [lia|]. split; [lia|]. split; [lia|].
  split; [|exact Hstatus].
  exists l. apply nth_error_In in Hl.
  repeat split; auto. lia.
Qed.

End SeedRuns.

Lemma seed_returns_what_it_stores_witness :
  [SeedRun.second; SeedRun.first] = [SeedRun.second; SeedRun.first] ++ [] /\
  List.length [SeedRun.second; SeedRun.first] = List.length SeedRun.draws.
Proof.
  destruct (@seed_returns_what_it_stores spec_models Sample.today
              SeedRun.listings SeedRun.users SeedRun.draws []
              ([SeedRun.second; SeedRun.first],
               [SeedRun.second; SeedRun.first]) eq_refl)
    as (Hrows & _ & Hall).
  split; [exact Hrows|]. apply Hall. reflexivity.
Defined.

Lemma seed_guest_is_never_host_witness :
  Forall (fun b =>
            exists l, In l SeedRun.listings /\
              Booking.listing b = Listing.listing_id l /\
              In (Booking.guest b) SeedRun.users /\
              Booking.guest b <> Listing.host l /\
              Booking.total_price b
              = Decimal.mul_int (Listing.price_per_night l)
                  (Booking.check_out_date b - Booking.check_in_date b))
         [SeedRun.second; SeedRun.first].
Proof.
  apply (@seed_guest_is_never_host spec_models Sample.today SeedRun.listings
           SeedRun.users SeedRun.draws []
           ([SeedRun.second; SeedRun.first],
            [SeedRun.second; SeedRun.first])).
  reflexivity.
Defined.

Lemma SeedRun_guests_in_range :
  Forall (guests_draw_in_range SeedRun.listings) SeedRun.draws.
Proof.
  unfold SeedRun.draws.
  apply Forall_cons; [|apply Forall_cons; [|apply Forall_nil]];
    intros l Hl; simpl in Hl; inversion Hl; subst l; simpl; lia.
Qed.

Lemma seed_dates_and_status_witness :
  Booking.status SeedRun.first = confirmed /\
  Booking.status SeedRun.first <> pending.
Proof.
  pose proof (@seed_dates_and_status spec_models Sample.today SeedRun.listings
                SeedRun.users SeedRun.draws []
                ([SeedRun.second; SeedRun.first],
                 [SeedRun.second; SeedRun.first])
                SeedRun_draws_admissible SeedRun_guests_in_range eq_refl)
    as Hall.
  apply Forall_inv_tail, Forall_inv in Hall.
  destruct Hall as (_ & _ & _ & _ & Hnp & Hconf & _).
  split; [|exact Hnp].
  apply Hconf. simpl. unfold Sample.today. lia.
Defined.

(** ** The seed command: when it stops *)

Lemma filter_none {A : Type} (f : A -> bool) (xs : list A) :
  (forall x, In x xs -> f x = false) -> filter f xs = [].
Proof.
  induction xs as [|x xs IH]; intros H; simpl; auto.
  rewrite (H x (or_introl eq_refl)). apply IH.
  intros y Hy. apply H. now right.
Qed.

(** X13.  [create_bookings] with no iteration to run leaves the table as
    it is.  With at least one iteration it stops with IndexError when no
    guest can be chosen: no listing is given, or every user given is the
    host of every listing; and it stops with ValueError when the listing
    first chosen has a guest limit below 1. *)
Theorem seed_edge_cases (M : Models) (today : date)
  (listings : list Listing.t) (users : list User) (rows : list Booking.t)
  (d : Draw) (rest : list Draw) :
  create_bookings M today [] listings users rows = Ok ([], rows) /\
  ((forall l u, In l listings -> In u users -> u = Listing.host l) ->
   create_bookings M today (d :: rest) listings users rows = Err IndexError) /\
  (forall l g,
     nth_error listings (draw_listing d) = Some l ->
     nth_error (filter (fun u => negb (Nat.eqb u (Listing.host l))) users)
               (draw_guest d) = Some g ->
     Listing.max_guests l < 1 ->
     create_bookings M today (d :: rest) listings users rows = Err ValueError).
Proof.
  split; [reflexivity|split].
  - intros Hhosts. unfold create_bookings. simpl.
    unfold seed_booking_step, random_choice.
    destruct (nth_error listings (draw_listing d)) as [l|] eqn:Hl;
      [|reflexivity].
    simpl. rewrite filter_none.
    + destruct (draw_guest d); reflexivity.
    + intros u Hu. apply nth_error_In in Hl.
      rewrite (Hhosts l u Hl Hu), Nat.eqb_refl. reflexivity.
  - intros l g Hl Hg Hmax. unfold create_bookings. simpl.
    unfold seed_booking_step, random_choice. rewrite Hl. simpl.
    rewrite Hg. simpl. unfold random_randint.
    replace (Z.min (Listing.max_guests l) 6 <? 1) with true
      by (symmetry; apply Z.ltb_lt; lia).
    reflexivity.
Qed.

Lemma seed_edge_cases_witness :
  create_bookings spec_models Sample.today SeedRun.draws SeedRun.listings
                  [Sample.host] []
  = Err IndexError /\
  create_bookings spec_models Sample.today SeedRun.draws
                  [Listing.make 3%nat Sample.host Sample.price 0 true]
                  SeedRun.users []
  = Err ValueError.
Proof.
  split.
  - apply (proj1 (proj2 (seed_edge_cases spec_models Sample.today
                           SeedRun.listings [Sample.host] []
                           (mkDraw 0 0 0 1 2 0 200%nat)
                           [mkDraw 0 1 0 1 1 0 201%nat]))).
    intros l u [Hl|[]] [Hu|[]]. subst l u. reflexivity.
  - apply (proj2 (proj2 (seed_edge_cases spec_models Sample.today
                           [Listing.make 3%nat Sample.host Sample.price 0 true]
                           SeedRun.users []
                           (mkDraw 0 0 0 1 2 0 200%nat)
                           [mkDraw 0 1 0 1 1 0 201%nat]))
             (Listing.make 3%nat Sample.host Sample.price 0 true) Sample.alice).
    + reflexivity.
    + reflexivity.
    + simpl. lia.
Defined.

(** ** The seed command: users *)

Lemma username_exists_iff (table : list Account.t) (username : string) :
  username_exists table username = true <->
  In username (map Account.username table).
Proof.
  unfold username_exists. rewrite QuerySet_exists_filter, existsb_exists.
  rewrite in_map_iff. split.
  - intros [a [Hin Heq]]. apply String.eqb_eq in Heq. exists a. auto.
  - intros [a [Heq Hin]]. exists a. split; auto. now apply String.eqb_eq.
Qed.

Lemma seed_user_step_Ok (users table : list Account.t) (i : nat) (d : UserDraw)
  (acc' : list Account.t * list Account.t) :
  seed_user_step (users, table) i d = Ok acc' ->
  (exists u, seeded_user table i u /\ acc' = (users ++ [u], u :: table)) \/
  (acc' = (users, table) /\
   exists f l, In f first_names /\ In l last_names /\
     In (seed_username f l i) (map Account.username table)).
Proof.
  unfold seed_user_step, random_choice. intros Hstep.
  destruct (nth_error first_names (draw_first_name d)) as [f|] eqn:Hf;
    simpl in Hstep; [|discriminate].
  destruct (nth_error last_names (draw_last_name d)) as [l|] eqn:Hl;
    simpl in Hstep; [|discriminate].
  apply nth_error_In in Hf, Hl.
  destruct (username_exists table (seed_username f l i)) eqn:Hex;
    simpl in Hstep; inversion Hstep; subst acc'.
  - right. split; auto. exists f, l. repeat split; auto.
    now apply username_exists_iff.
  - left. eexists. split; [|reflexivity].
    unfold seeded_user. simpl. repeat split; auto.
    intros Hin. apply username_exists_iff in Hin. congruence.
Qed.

(** A run of the loop from index [i]: the users returned are appended to
    the list and put in front of the table, newest first, and usernames
    stay unique. *)
Lemma seed_user_loop_Ok (draws : list UserDraw) :
  forall acc i res,
    seed_user_loop acc i draws = Ok res ->
    NoDup (map Account.username (snd acc)) ->
    exists created,
      fst res = fst acc ++ created /\
      snd res = rev created ++ snd acc /\
      (List.length created <= List.length draws)%nat /\
      NoDup (map Account.username (snd res)) /\
      Forall (fun u => exists j, (i <= j < i + List.length draws)%nat /\
                         seeded_user (snd acc) j u) created.
Proof.
  induction draws as [|d rest IH]; intros acc i res Hrun Hnd; simpl in Hrun.
  - inversion Hrun; subst. exists []. simpl. rewrite app_nil_r.
    repeat split; auto.
  - destruct (seed_user_step acc i d) as [acc'|e] eqn:Hstep; simpl in Hrun;
      [|discriminate].
    destruct acc as [users table]. simpl in Hnd.
    destruct (seed_user_step_Ok _ _ _ _ Hstep) as [(u & Hu & ->)|(-> & _)].
    + assert (Hnd' : NoDup (map Account.username (u :: table))).
      { simpl. constructor; [apply Hu|exact Hnd]. }
      destruct (IH _ _ _ Hrun Hnd')
        as (created & Hfst & Hsnd & Hlen & Hnodup & Hall).
      simpl in Hfst, Hsnd.
      exists (u :: created). simpl. rewrite <- !app_assoc in *. simpl.
      split; [exact Hfst|]. split; [exact Hsnd|]. split; [lia|].
      split; [exact Hnodup|].
      constructor.
      * exists i. split; [lia|exact Hu].
      * eapply Forall_impl; [|exact Hall].
        intros v (j & Hj & Hf & Hl & Hn & He & Hnew). exists j.
        split; [lia|]. unfold seeded_user. repeat split; auto.
        intros Hin. apply Hnew. simpl. now right.
    + destruct (IH _ _ _ Hrun Hnd)
        as (created & Hfst & Hsnd & Hlen & Hnodup & Hall).
      exists created. simpl in *.
      split; [exact Hfst|]. split; [exact Hsnd|]. split; [lia|].
      split; [exact Hnodup|].
      eapply Forall_impl; [|exact Hall].
      intros v (j & Hj & Hs). exists j. split; [lia|exact Hs].
Qed.

(** X14.  [create_users] keeps usernames unique: it creates a user only
    under a username the table does not hold, so a table without duplicate
    usernames has none after the run.  The users it returns are the rows
    it added, at most one per iteration; each has names from the two
    lists, the username built from them and the loop index, and the email
    username@example.com. *)
Theorem seed_users_keep_usernames_unique (draws : list UserDraw)
  (table : list Account.t) (res : list Account.t * list Account.t) :
  create_users draws table = Ok res ->
  NoDup (map Account.username table) ->
  NoDup (map Account.username (snd res)) /\
  snd res = rev (fst res) ++ table /\
  (List.length (fst res) <= List.length draws)%nat /\
  Forall (fun u => exists j, (j < List.length draws)%nat /\
                     seeded_user table j u) (fst res).
Proof.
  unfold create_users. intros Hrun Hnd.
  destruct (seed_user_loop_Ok _ _ _ Hrun Hnd)
    as (created & Hfst & Hsnd & Hlen & Hnodup & Hall).
  simpl in Hfst, Hsnd, Hall. subst created.
  repeat split; auto.
  eapply Forall_impl; [|exact Hall].
  intros u (j & Hj & Hs). exists j. split; [lia|exact Hs].
Qed.

Lemma seed_users_keep_usernames_unique_witness :
  NoDup ["janejohnson2"; "johnsmith1"; "johnsmith3"]%string.
Proof.
  apply (@seed_users_keep_usernames_unique
           [mkUserDraw 0 0 1%nat; mkUserDraw 1 1 2%nat; mkUserDraw 0 0 3%nat]
           [Account.make 9%nat "johnsmith3" "old@example.com" "John" "Smith"]
           ([Account.make 1%nat "johnsmith1" "johnsmith1@example.com"
                          "John" "Smith";
             Account.make 2%nat "janejohnson2" "janejohnson2@example.com"
                          "Jane" "Johnson"],
            [Account.make 2%nat "janejohnson2" "janejohnson2@example.com"
                          "Jane" "Johnson";
             Account.make 1%nat "johnsmith1" "johnsmith1@example.com"
                          "John" "Smith";
             Account.make 9%nat "johnsmith3" "old@example.com"
                          "John" "Smith"])).
  - reflexivity.
  - simpl. constructor; [intros []|constructor].
Defined.

(** *** Usernames of one run do not collide *)

Lemma append_assoc_string (a b c : string) :
  ((a ++ b) ++ c = a ++ b ++ c)%string.
Proof. induction a as [|x a IH]; simpl; [reflexivity|now rewrite IH]. Qed.

Lemma all_chars_append (test : ascii -> bool) (a b : string) :
  all_chars test (a ++ b) = all_chars test a && all_chars test b.
Proof.
  induction a as [|x a IH]; simpl; [reflexivity|].
  now rewrite IH, andb_assoc.
Qed.

Lemma str_of_nat_digits (n : nat) : all_chars is_digit (str_of_nat n) = true.
Proof.
  unfold str_of_nat. generalize (Nat.to_uint n). intros d.
  induction d; simpl; auto.
Qed.

Lemma str_of_nat_inj (n m : nat) : str_of_nat n = str_of_nat m -> n = m.
Proof.
  unfold str_of_nat. intros H. apply Unsigned.to_uint_inj.
  assert (Hs : Some (Nat.to_uint n) = Some (Nat.to_uint m)).
  { rewrite <- (NilEmpty.usu (Nat.to_uint n)), H. apply NilEmpty.usu. }
  now inversion Hs.
Qed.

(** Two strings made of a digit-free part followed by digits are equal
    only if their digits are. *)
Lemma digits_suffix_unique (p1 : string) :
  forall p2 d1 d2,
    all_chars (fun c => negb (is_digit c)) p1 = true ->
    all_chars (fun c => negb (is_digit c)) p2 = true ->
    all_chars is_digit d1 = true ->
    all_chars is_digit d2 = true ->
    (p1 ++ d1 = p2 ++ d2)%string ->
    d1 = d2.
Proof.
  induction p1 as [|c p1 IH]; intros p2 d1 d2 H1 H2 Hd1 Hd2 Heq.
  - destruct p2 as [|c2 p2]; simpl in Heq; [exact Heq|].
    subst d1. simpl in Hd1, H2.
    apply andb_true_iff in Hd1, H2. destruct Hd1 as [Hc _], H2 as [Hn _].
    rewrite Hc in Hn. discriminate.
  - destruct p2 as [|c2 p2]; simpl in Heq.
    + subst d2. simpl in Hd2, H1.
      apply andb_true_iff in Hd2, H1. destruct Hd2 as [Hc _], H1 as [Hn _].
      rewrite Hc in Hn. discriminate.
    + inversion Heq; subst c2. simpl in H1, H2.
      apply andb_true_iff in H1, H2.
      apply (IH p2 d1 d2); tauto.
Qed.

Lemma names_have_no_digit (f l : string) :
  In f first_names -> In l last_names ->
  all_chars (fun c => negb (is_digit c)) (lower f ++ lower l) = true.
Proof.
  intros Hf Hl. rewrite all_chars_append.
  assert (Hfs : forallb (fun s => all_chars (fun c => negb (is_digit c))
                                            (lower s)) first_names = true)
    by reflexivity.
  assert (Hls : forallb (fun s => all_chars (fun c => negb (is_digit c))
                                            (lower s)) last_names = true)
    by reflexivity.
  rewrite forallb_forall in Hfs, Hls.
  now rewrite (Hfs f Hf), (Hls l Hl).
Qed.

Lemma seed_username_index (f1 l1 f2 l2 : string) (i1 i2 : nat) :
  In f1 first_names -> In l1 last_names ->
  In f2 first_names -> In l2 last_names ->
  seed_username f1 l1 i1 = seed_username f2 l2 i2 ->
  i1 = i2.
Proof.
  unfold seed_username. intros Hf1 Hl1 Hf2 Hl2 Heq.
  rewrite <- !append_assoc_string in Heq.
  apply digits_suffix_unique in Heq;
    auto using names_have_no_digit, str_of_nat_digits.
  apply str_of_nat_inj in Heq. lia.
Qed.

Lemma seed_user_loop_creates_all (draws : list UserDraw) :
  forall acc i,
    Forall (fun d => (draw_first_name d < List.length first_names)%nat /\
                     (draw_last_name d < List.length last_names)%nat) draws ->
    usernames_below i (snd acc) ->
    exists res,
      seed_user_loop acc i draws = Ok res /\
      List.length (fst res) = (List.length (fst acc) + List.length draws)%nat.
Proof.
  induction draws as [|d rest IH]; intros [users table] i Hdraws Hbelow.
  - exists (users, table). simpl. split; [reflexivity|lia].
  - inversion Hdraws as [|? ? [Hf Hl] Hrest]; subst.
    simpl. unfold seed_user_step, random_choice.
    destruct (nth_error first_names (draw_first_name d)) as [f|] eqn:Ef;
      [|apply nth_error_None in Ef; lia].
    destruct (nth_error last_names (draw_last_name d)) as [l|] eqn:El;
      [|apply nth_error_None in El; lia].
    apply nth_error_In in Ef, El. simpl.
    destruct (username_exists table (seed_username f l i)) eqn:Hex.
    + exfalso. apply username_exists_iff, in_map_iff in Hex.
      destruct Hex as (u & Hu & Hin). simpl in Hbelow.
      unfold usernames_below in Hbelow. rewrite Forall_forall in Hbelow.
      destruct (Hbelow u Hin) as (f' & l' & j & Hf' & Hl' & Hj & Hname).
      rewrite Hname in Hu.
      apply seed_username_index in Hu; auto. lia.
    + simpl.
      destruct (IH (users ++ [Account.make (draw_user_id d)
                                (seed_username f l i)
                                (seed_username f l i ++ "@example.com")
                                f l],
                    Account.make (draw_user_id d) (seed_username f l i)
                      (seed_username f l i ++ "@example.com") f l :: table)
                   (S i) Hrest) as (res & Hrun & Hlen).
      * simpl. constructor.
        -- exists f, l, i. simpl. repeat split; auto.
        -- eapply Forall_impl; [|exact Hbelow].
           intros u (f' & l' & j & ? & ? & ? & ?). exists f', l', j.
           repeat split; auto.
      * exists res. split; [exact Hrun|].
        rewrite Hlen. simpl. rewrite length_app. simpl. lia.
Qed.

(** X15.  On an empty User table [create_users] never skips an
    iteration: the usernames it builds end in the loop index plus one, so
    no two of one run are equal, and it returns as many users as there
    are iterations. *)
Theorem seed_users_on_empty_table (draws : list UserDraw) :
  Forall (fun d => (draw_first_name d < List.length first_names)%nat /\
                   (draw_last_name d < List.length last_names)%nat) draws ->
  exists res,
    create_users draws [] = Ok res /\
    List.length (fst res) = List.length draws /\
    List.length (snd res) = List.length draws.
Proof.
  intros Hdraws. unfold create_users.
  destruct (@seed_user_loop_creates_all draws ([], []) 0%nat Hdraws)
    as (res & Hrun & Hlen); [constructor|].
  exists res. split; [exact Hrun|]. split; [exact Hlen|].
  destruct (seed_user_loop_Ok _ _ _ Hrun (NoDup_nil _))
    as (created & Hfst & Hsnd & _).
  simpl in Hfst, Hsnd. subst created.
  rewrite Hsnd, app_nil_r, length_rev. exact Hlen.
Qed.

Lemma seed_users_on_empty_table_witness :
  exists res,
    create_users [mkUserDraw 0 0 1%nat; mkUserDraw 0 0 2%nat] [] = Ok res /\
    List.length (fst res) = 2%nat /\ List.length (snd res) = 2%nat.
Proof.
  apply (@seed_users_on_empty_table
           [mkUserDraw 0 0 1%nat; mkUserDraw 0 0 2%nat]).
  apply Forall_cons; [simpl; lia|].
  apply Forall_cons; [simpl; lia|apply Forall_nil].
Defined.

(** ** The seed command: reviews *)

Lemma review_rating_range_bounds (comment : string) :
  3 <= fst (review_rating_range comment) /\
  fst (review_rating_range comment) <= snd (review_rating_range comment) /\
  snd (review_rating_range comment) <= 5.
Proof.
  unfold review_rating_range.
  destruct (contains "great" (lower comment) || contains "perfect" (lower comment)
            || contains "exceeded" (lower comment)); simpl; [lia|].
  destruct (contains "decent" (lower comment) || contains "solid" (lower comment)
            || contains "minor issues" (lower comment)); simpl; lia.
Qed.

Section SeedReviews.

Variable M : Models.
Variable hasattr_review : list Review.t -> Booking.t -> bool.
Variable count : Z.
Variable draws : Z -> ReviewDraw.

(** A run of the loop that does not crash: the reviews written are put
    in front of the table, one for each booking of a sublist of the
    bookings attempted, and the counter goes up by their number without
    passing [count]. *)
Lemma seed_review_loop_Ok (attempted : list Booking.t) :
  forall n rows n' rows',
    seed_review_loop M hasattr_review count draws attempted n rows
    = Ok (n', rows') ->
    exists new,
      rows' = new ++ rows /\
      n' = n + Z.of_nat (List.length new) /\
      (List.length new <= List.length attempted)%nat /\
      (n' <= Z.max n count) /\
      Forall (fun r => exists b k,
                 In b attempted /\ seeded_review b r /\
                 n <= k < n' /\
                 Review.review_id r = draw_review_id (draws k) /\
                 Review.rating r = draw_rating (draws k) /\
                 nth_error review_comments (draw_comment (draws k))
                 = Some (Review.comment r)) new.
Proof.
  induction attempted as [|b rest IH]; intros n rows n' rows' Hrun;
    simpl in Hrun.
  - inversion Hrun; subst. exists []. simpl.
    repeat split; auto; lia.
  - destruct (Z.leb_spec count n) as [Hfull|Hroom].
    + inversion Hrun; subst. exists []. simpl.
      repeat split; auto; lia.
    + destruct (hasattr_review rows b).
      * destruct (IH _ _ _ _ Hrun) as (new & Hrows & Hn & Hlen & Hmax & Hall).
        exists new. simpl. repeat split; auto; try lia.
        eapply Forall_impl; [|exact Hall].
        intros r (b0 & k & Hin & Hrest). exists b0, k. split; [now right|auto].
      * unfold random_choice in Hrun.
        destruct (nth_error review_comments (draw_comment (draws n)))
          as [comment|] eqn:Hc; simpl in Hrun; [|discriminate].
        unfold random_randint in Hrun.
        destruct (snd (review_rating_range comment)
                  <? fst (review_rating_range comment));
          simpl in Hrun; [discriminate|].
        unfold Review_create in Hrun.
        match type of Hrun with
        | context [Review_accepts M rows ?inst] =>
            destruct (Review_accepts M rows inst); simpl in Hrun;
              [|discriminate];
            set (r := inst) in *
        end.
        destruct (IH _ _ _ _ Hrun) as (new & Hrows & Hn & Hlen & Hmax & Hall).
        exists (new ++ [r]). rewrite <- app_assoc. simpl.
        rewrite length_app. simpl.
        split; [exact Hrows|]. split; [lia|]. split; [lia|]. split; [lia|].
        apply Forall_app. split.
        -- eapply Forall_impl; [|exact Hall].
           intros r0 (b0 & k & Hin & Hs & Hk & Hrest). exists b0, k.
           split; [now right|]. split; [exact Hs|]. split; [lia|exact Hrest].
        -- constructor; [|constructor]. exists b, n.
           split; [now left|]. split.
           ++ unfold seeded_review, r. simpl. repeat split; auto.
              now apply nth_error_In in Hc.
           ++ split; [lia|]. unfold r. simpl. auto.
Qed.

Variable shuffle : list Booking.t -> list Booking.t.
Hypothesis shuffle_permutes : forall l, Permutation (shuffle l) l.

(** X16.  [create_reviews] returns the number of reviews it has written:
    the table grows by exactly that many rows.  The number is at most
    [count] (none for a [count] of 0 or less) and at most the number of
    completed bookings among those given. *)
Theorem seed_reviews_count (bookings : list Booking.t) (rows : list Review.t)
  (n : Z) (rows' : list Review.t) :
  create_reviews M hasattr_review shuffle draws count bookings rows
  = Ok (n, rows') ->
  exists new,
    rows' = new ++ rows /\
    n = Z.of_nat (List.length new) /\
    n <= Z.max 0 count /\
    (List.length new
     <= List.length (filter (fun b => Status_eqb (Booking.status b) completed)
                            bookings))%nat.
Proof.
  unfold create_reviews. intros Hrun.
  destruct (seed_review_loop_Ok _ _ _ Hrun)
    as (new & Hrows & Hn & Hlen & Hmax & _).
  exists new. rewrite (Permutation_length (shuffle_permutes _)) in Hlen.
  repeat split; auto.
Qed.

(** X17.  Every review [create_reviews] writes is for a booking of the
    list given whose status is completed: it has that booking's listing
    and guest and refers to it.  With ratings drawn in the bounds asked
    for, its rating lies in the bounds of its comment, hence between 3 and
    5, and passes [validate_rating]. *)
Theorem seed_reviews_follow_completed_bookings (bookings : list Booking.t)
  (rows : list Review.t) (n : Z) (new : list Review.t) :
  rating_draws_in_range draws ->
  create_reviews M hasattr_review shuffle draws count bookings rows
  = Ok (n, new ++ rows) ->
  Forall (fun r =>
            (exists b, In b bookings /\ Booking.status b = completed /\
                       seeded_review b r) /\
            fst (review_rating_range (Review.comment r)) <= Review.rating r
            <= snd (review_rating_range (Review.comment r)) /\
            3 <= Review.rating r <= 5 /\
            validate_rating (Review.rating r) = Ok (Review.rating r)) new.
Proof.
  unfold create_reviews. intros Hdraws Hrun.
  destruct (seed_review_loop_Ok _ _ _ Hrun)
    as (new' & Hrows & _ & _ & _ & Hall).
  apply app_inv_tail in Hrows. subst new'.
  eapply Forall_impl; [|exact Hall].
  intros r (b & k & Hin & Hs & _ & _ & Hrat & Hc).
  apply (Permutation_in _ (shuffle_permutes _)) in Hin.
  apply filter_In in Hin. destruct Hin as [Hin Hst].
  apply Status_eqb_eq in Hst.
  pose proof (Hdraws k _ Hc) as Hrange. rewrite <- Hrat in Hrange.
  pose proof (review_rating_range_bounds (Review.comment r)) as Hb.
  split; [exists b; auto|]. split; [exact Hrange|]. split; [lia|].
  unfold validate_rating.
  replace (1 <=? Review.rating r) with true by (symmetry; apply Z.leb_le; lia).
  replace (Review.rating r <=? 5) with true by (symmetry; apply Z.leb_le; lia).
  reflexivity.
Qed.

End SeedReviews.

Lemma seed_reviews_count_witness :
  exists new,
    [SeedReviewRun.review] = new ++ [] /\
    1 = Z.of_nat (List.length new) /\
    1 <= Z.max 0 1 /\
    (List.length new
     <= List.length (filter (fun b => Status_eqb (Booking.status b) completed)
                            [SampleReviews.stay; Sample.booking_A]))%nat.
Proof.
  apply (@seed_reviews_count spec_models one_to_one_review 1
           SeedReviewRun.draws SeedReviewRun.shuffle
           (fun l => Permutation_refl l)
           [SampleReviews.stay; Sample.booking_A] [] 1
           [SeedReviewRun.review]).
  reflexivity.
Defined.

Lemma SeedReviewRun_ratings_in_range :
  rating_draws_in_range SeedReviewRun.draws.
Proof.
  intros k comment Hc. simpl in Hc. inversion Hc; subst comment.
  simpl. lia.
Qed.

Lemma seed_reviews_follow_completed_bookings_witness :
  3 <= Review.rating SeedReviewRun.review <= 5 /\
  validate_rating (Review.rating SeedReviewRun.review)
  = Ok (Review.rating SeedReviewRun.review).
Proof.
  pose proof (@seed_reviews_follow_completed_bookings spec_models
                one_to_one_review 1 SeedReviewRun.draws SeedReviewRun.shuffle
                (fun l => Permutation_refl l)
                [SampleReviews.stay; Sample.booking_A] [] 1
                [SeedReviewRun.review]
                SeedReviewRun_ratings_in_range eq_refl) as Hall.
  apply Forall_inv in Hall. destruct Hall as (_ & _ & H35 & Hval).
  split; [exact H35|exact Hval].
Defined.

(** *** One review per booking *)

Lemma one_to_one_review_iff (rows : list Review.t) (b : Booking.t) :
  one_to_one_review rows b = true <->
  exists r, In r rows /\ Review.booking r = Some (Booking.booking_id b).
Proof.
  unfold one_to_one_review. rewrite existsb_exists.
  split; intros [r [Hin Hr]]; exists r; split; auto.
  - destruct (Review.booking r) as [i|]; [|discriminate].
    apply Nat.eqb_eq in Hr. now subst i.
  - rewrite Hr. apply Nat.eqb_refl.
Qed.

Lemma one_review_per_booking_cons (rows : list Review.t) (r : Review.t) :
  one_review_per_booking rows ->
  (forall e, In e rows -> Review.booking r = None \/
                          Review.booking e <> Review.booking r) ->
  one_review_per_booking (r :: rows).
Proof.
  intros Hinv Hnew i j x y k Hij Hx Hy Hxk Hyk.
  destruct i as [|i], j as [|j]; simpl in Hx, Hy.
  - congruence.
  - inversion Hx; subst x. apply nth_error_In in Hy.
    destruct (Hnew y Hy); congruence.
  - inversion Hy; subst y. apply nth_error_In in Hx.
    destruct (Hnew x Hx); congruence.
  - apply (Hinv i j x y k); auto.
Qed.

Lemma seed_review_loop_one_per_booking (M : Models) (count : Z)
  (draws : Z -> ReviewDraw) (attempted : list Booking.t) :
  forall n rows res,
    one_review_per_booking rows ->
    seed_review_loop M one_to_one_review count draws attempted n rows = Ok res ->
    one_review_per_booking (snd res).
Proof.
  induction attempted as [|b rest IH]; intros n rows res Hinv Hrun;
    simpl in Hrun.
  - inversion Hrun; subst. exact Hinv.
  - destruct (count <=? n); [inversion Hrun; subst; exact Hinv|].
    destruct (one_to_one_review rows b) eqn:Hattr.
    + exact (IH _ _ _ Hinv Hrun).
    + destruct (random_choice review_comments _) as [comment|];
        simpl in Hrun; [|discriminate].
      destruct (random_randint _ _ _) as [rating|]; simpl in Hrun;
        [|discriminate].
      unfold Review_create in Hrun.
      match type of Hrun with
      | context [Review_accepts M rows ?inst] =>
          destruct (Review_accepts M rows inst); simpl in Hrun;
            [|discriminate]
      end.
      apply (IH _ _ _) in Hrun; auto.
      apply one_review_per_booking_cons; auto.
      intros e He. right. simpl. intros Heq.
      assert (Ht : one_to_one_review rows b = true).
      { apply one_to_one_review_iff. exists e. auto. }
      congruence.
Qed.

(** X18.  When [hasattr(booking, 'review')] is the reverse accessor of a
    one-to-one field, [create_reviews] skips a booking that a review
    refers to, so it keeps the Review table with at most one review per
    booking. *)
Theorem seed_reviews_one_per_booking (M : Models)
  (shuffle : list Booking.t -> list Booking.t) (draws : Z -> ReviewDraw)
  (count : Z) (bookings : list Booking.t) (rows : list Review.t)
  (res : Z * list Review.t) :
  one_review_per_booking rows ->
  create_reviews M one_to_one_review shuffle draws count bookings rows = Ok res ->
  one_review_per_booking (snd res).
Proof.
  unfold create_reviews. intros Hinv Hrun.
  eapply seed_review_loop_one_per_booking; [exact Hinv|exact Hrun].
Qed.

(** The same booking given twice is reviewed once. *)
Lemma seed_reviews_one_per_booking_witness :
  create_reviews spec_models one_to_one_review SeedReviewRun.shuffle
    SeedReviewRun.draws 5 [SampleReviews.stay; SampleReviews.stay] []
  = Ok (1, [SeedReviewRun.review]) /\
  one_review_per_booking [SeedReviewRun.review].
Proof.
  split; [reflexivity|].
  apply (@seed_reviews_one_per_booking spec_models SeedReviewRun.shuffle
           SeedReviewRun.draws 5 [SampleReviews.stay; SampleReviews.stay] []
           (1, [SeedReviewRun.review])).
  - intros i j a b k _ Ha. destruct i; discriminate.
  - reflexivity.
Defined.


(** ** The seed command: bookings, then reviews *)

Lemma seed_status_completed (today start_date end_date : date) (pos : nat) :
  start_date <= today ->
  seed_status today start_date end_date pos = completed ->
  end_date < today.
Proof.
  unfold seed_status. intros Hstart.
  destruct (Z.ltb_spec end_date today) as [Hpast|Hnow]; [auto|].
  replace (start_date <=? today) with true by (symmetry; apply Z.leb_le; lia).
  replace (today <=? end_date) with true by (symmetry; apply Z.leb_le; lia).
  simpl. discriminate.
Qed.

(** X19.  In a seed run the reviews are written for bookings the run has
    just stored: every new review refers to a stored, completed booking
    whose check-out is before today, by the review's guest at the review's
    listing.  So its guest has the completed stay that [ReviewSerializer]
    asks of a reviewer, and is not the host of the listing. *)
Theorem seeded_reviews_are_eligible (M : Models)
  (hasattr_review : list Review.t -> Booking.t -> bool)
  (shuffle : list Booking.t -> list Booking.t) (today : date)
  (booking_draws : list Draw) (review_draws : Z -> ReviewDraw)
  (review_count : Z) (ls : list Listing.t) (us : list User) (db db' : DB) :
  (forall l, Permutation (shuffle l) l) ->
  Forall draw_admissible booking_draws ->
  seed_bookings_then_reviews M hasattr_review shuffle today booking_draws
    review_draws review_count ls us db = Ok db' ->
  exists new,
    reviews db' = new ++ reviews db /\
    Forall (fun r =>
              has_completed_stay db' (Review.listing r) (Review.guest r) /\
              (exists b, In b (bookings db') /\
                 Review.booking r = Some (Booking.booking_id b) /\
                 Booking.listing b = Review.listing r /\
                 Booking.guest b = Review.guest r /\
                 Booking.status b = completed /\
                 Booking.check_out_date b < today) /\
              (exists l, In l ls /\
                 Listing.listing_id l = Review.listing r /\
                 Review.guest r <> Listing.host l)) new.
Proof.
  intros Hperm Hadm Hrun. unfold seed_bookings_then_reviews in Hrun.
  destruct (create_bookings M today booking_draws ls us (bookings db))
    as [[bs rows]|e] eqn:Hb; simpl in Hrun; [|discriminate].
  destruct (create_reviews M hasattr_review shuffle review_draws review_count
              (rev bs) (reviews db)) as [[n rrows]|e] eqn:Hr;
    simpl in Hrun; [|discriminate].
  inversion Hrun; subst db'; clear Hrun. simpl.
  unfold create_bookings in Hb.
  destruct (seed_booking_loop_Ok _ _ _ _ _ _ Hb)
    as (created & Hfst & Hsnd & _ & _ & Hfrom).
  simpl in Hfst, Hsnd. rewrite app_nil_r in Hfst. subst created.
  unfold create_reviews in Hr.
  destruct (seed_review_loop_Ok _ _ _ _ _ _ _ Hr)
    as (new & Hrows & _ & _ & _ & Hall).
  exists new. split; [exact Hrows|].
  eapply Forall_impl; [|exact Hall].
  intros r (b & k & Hin & (Hl & Hg & Hbk & _) & _).
  apply (Permutation_in _ (Hperm _)) in Hin.
  apply filter_In in Hin. destruct Hin as [Hin Hst].
  apply Status_eqb_eq in Hst. apply in_rev in Hin.
  rewrite Forall_forall in Hfrom, Hadm.
  destruct (Hfrom b Hin) as (d & Hd & l & g & Hnl & Hng & _ & Hrow).
  destruct (Hadm d Hd) as (Hback & _ & _).
  assert (Hstored : In b rows).
  { rewrite Hsnd. apply in_or_app. now left. }
  assert (Hout : Booking.check_out_date b < today).
  { rewrite Hrow in Hst |- *. unfold seed_row in *. simpl in *.
    apply seed_status_completed
      with (start_date := today - draw_days_back d) (pos := draw_status d);
      [lia|exact Hst]. }
  split; [|split].
  - exists b. repeat split; auto.
  - exists b. repeat split; auto.
  - exists l. apply nth_error_In in Hnl, Hng. apply filter_In in Hng.
    destruct Hng as [_ Hne]. apply negb_true_iff, Nat.eqb_neq in Hne.
    rewrite Hl, Hg, Hrow. unfold seed_row. simpl. auto.
Qed.

Lemma seeded_reviews_are_eligible_witness :
  has_completed_stay SeedReviewRun.seeded_db 1%nat Sample.alice.
Proof.
  assert (Hadm : Forall draw_admissible [SeedReviewRun.past_draw]).
  { apply Forall_cons; [simpl; unfold draw_admissible; simpl; lia|].
    apply Forall_nil. }
  destruct (@seeded_reviews_are_eligible spec_models one_to_one_review
              SeedReviewRun.shuffle Sample.today [SeedReviewRun.past_draw]
              SeedReviewRun.draws 5 SeedRun.listings SeedRun.users
              Sample.db0 SeedReviewRun.seeded_db
              (fun l => Permutation_refl l) Hadm eq_refl)
    as (new & Hrows & Hall).
  destruct new as [|r new]; [discriminate Hrows|].
  simpl in Hrows. inversion Hrows; subst r.
  apply Forall_inv in Hall. exact (proj1 Hall).
Defined.

(** ** Review validation, check by check *)

(** X20.  A review-creation request one of whose fields fails the field's
    own validation is refused with the field errors.  A request whose
    fields are valid is decided by the first check it fails, in this
    order: a rating outside 1..5 gives InvalidRating; then an unknown
    listing gives NotFound; then a guest without a completed booking of the
    listing gives NotEligible; then an earlier review by the guest for the
    listing gives DuplicateReview.  A request that passes all of them
    reaches [create], which stores the review unless the model layer
    refuses the row. *)
Theorem review_validation_order (M : Models) (user : User) (new_id : UUID)
  (db : DB) (r : ReviewRequest.t) :
  let data := ReviewRequest.data r in
  let l := ReviewData.listing_id data in
  let result := create_review M user new_id db r in
  (Review_fields_fail M data -> result = raise InvalidField) /\
  (forall comment, Review_fields_pass M data comment ->
   (~ rating_ok (ReviewData.rating data) -> result = raise InvalidRating) /\
   (rating_ok (ReviewData.rating data) -> Listing_get db l = None ->
    result = raise NotFound) /\
   (rating_ok (ReviewData.rating data) ->
    (exists listing, Listing_get db l = Some listing) ->
    (~ has_completed_stay db l user -> result = raise NotEligible) /\
    (has_completed_stay db l user -> has_review db l user ->
     result = raise DuplicateReview) /\
    (has_completed_stay db l user -> ~ has_review db l user ->
     (exists rv db', result = Ok (rv, db') /\
                     Review.comment rv = comment) \/
     result = Err IntegrityError))).
Proof.
  intros data l result. subst result.
  destruct (create_review_cases M user new_id db r) as (Hfail & Hcases).
  split; [exact Hfail|].
  intros comment Hpass.
  destruct (Hcases comment Hpass) as (Hbad & Hnf & Hrest).
  split; [exact Hbad|]. split; [exact Hnf|].
  intros Hrat [listing Hget].
  destruct (Hrest Hrat (ex_intro _ listing Hget)) as (Hne & Hdup & Hgo).
  split; [exact Hne|]. split; [exact Hdup|].
  intros Hstay Hno. rewrite (Hgo Hstay Hno).
  unfold Review_create_from, cleaned.
  cbn [ReviewData.listing_id ReviewData.booking_id ReviewData.rating
       ReviewData.comment].
  unfold l, data in Hget. rewrite Hget. unfold Review_create.
  match goal with
  | |- context [Review_accepts M ?rows ?inst] =>
      destruct (Review_accepts M rows inst)
  end; simpl; [left|right; reflexivity].
  eexists. eexists. split; reflexivity.
Qed.

Lemma review_validation_order_witness :
  create_review spec_models Sample.alice 501%nat SampleReviews.db_reviewed
    (ReviewRequest.make (ReviewData.make 1%nat None 4 "  "%string) None None)
  = raise InvalidField /\
  create_review spec_models Sample.alice 501%nat SampleReviews.db_reviewed
    (SampleReviews.request 1%nat None 9) = raise InvalidRating /\
  create_review spec_models Sample.alice 501%nat SampleReviews.db_reviewed
    (SampleReviews.request 7%nat None 4) = raise NotFound /\
  create_review spec_models Sample.bob 501%nat SampleReviews.db_reviewed
    (SampleReviews.request 1%nat None 4) = raise NotEligible.
Proof.
  refine (conj _ (conj _ (conj _ _))).
  - apply (proj1 (review_validation_order spec_models Sample.alice 501%nat
                    SampleReviews.db_reviewed
                    (ReviewRequest.make
                       (ReviewData.make 1%nat None 4 "  "%string) None None))).
    right. reflexivity.
  - destruct (proj2 (review_validation_order spec_models Sample.alice 501%nat
                       SampleReviews.db_reviewed
                       (SampleReviews.request 1%nat None 9))
                    "Great place"%string) as (Hbad & _).
    + split; reflexivity.
    + apply Hbad. unfold rating_ok. simpl. lia.
  - destruct (proj2 (review_validation_order spec_models Sample.alice 501%nat
                       SampleReviews.db_reviewed
                       (SampleReviews.request 7%nat None 4))
                    "Great place"%string) as (_ & Hnf & _).
    + split; reflexivity.
    + apply Hnf; [unfold rating_ok; simpl; lia|reflexivity].
  - destruct (proj2 (review_validation_order spec_models Sample.bob 501%nat
                       SampleReviews.db_reviewed
                       (SampleReviews.request 1%nat None 4))
                    "Great place"%string) as (_ & _ & Hrest).
    + split; reflexivity.
    + destruct Hrest as (Hne & _).
      * unfold rating_ok. simpl. lia.
      * exists Sample.flat. reflexivity.
      * apply Hne.
        intros [b ([Hb|[]] & _ & Hg & _)]. subst b. discriminate Hg.
Defined.
